(** * AWS Athena MCP server: the query facade and its tool surface

    A shallow embedding of [athena.ts] (class [AthenaService]) and of the
    [CallToolRequestSchema] handler of [index.ts], with the properties of the
    poll-and-bound orchestrator, the status query and the result decoder.

    The remote service ([AthenaClient.send]), the clock ([Date.now]) and the
    timer ([setTimeout]) are an interface the development is parametric in;
    every request sent to the service is recorded in a trace, so that "no
    request was made" and "no request was made after the budget ran out" are
    statements about that trace. *)

From Stdlib Require Import ZArith Lia.
From stdpp Require Import base option strings list gmap.

Local Open Scope string_scope.
Local Open Scope list_scope.

(** ** JavaScript values and truthiness *)

(** The values a tool argument can take.  Numbers are the integer-valued
    ones; objects and arrays are not inspected by the handler beyond their
    [typeof] and their truthiness. *)
Inductive value : Type :=
| VUndefined
| VNull
| VBoolean (b : bool)
| VNumber (n : Z)
| VString (s : string)
| VObject.

Inductive js_type : Type := TUndefined | TObject | TBoolean | TNumber | TString.

Definition typeof (v : value) : js_type :=
  match v with
  | VUndefined => TUndefined
  | VNull => TObject
  | VBoolean _ => TBoolean
  | VNumber _ => TNumber
  | VString _ => TString
  | VObject => TObject
  end.

Definition is_string (v : value) : bool :=
  match typeof v with TString => true | _ => false end.

(** [!!s] for a string. *)
Definition truthy_string (s : string) : bool :=
  match s with "" => false | _ => true end.

(** [!!n] for an (integer-valued) number. *)
Definition truthy_number (n : Z) : bool := negb (n =? 0)%Z.

(** [!!v]. *)
Definition truthy (v : value) : bool :=
  match v with
  | VUndefined | VNull => false
  | VBoolean b => b
  | VNumber n => truthy_number n
  | VString s => truthy_string s
  | VObject => true
  end.

(** [x || d] where [x] is a possibly undefined string. *)
Definition or_string (x : option string) (d : string) : string :=
  match x with
  | Some s => if truthy_string s then s else d
  | None => d
  end.

(** [x || d] where [x] is a possibly undefined number. *)
Definition or_number (x : option Z) (d : Z) : Z :=
  match x with
  | Some n => if truthy_number n then n else d
  | None => d
  end.

(** ** Shapes of the Athena SDK ([@aws-sdk/client-athena]) *)

Record QueryExecutionStatus : Type := {
  State : option string;
  StateChangeReason : option string;
}.

Record QueryExecutionStatistics : Type := {
  DataScannedInBytes : option Z;
  EngineExecutionTimeInMillis : option Z;
}.

Record QueryExecutionT : Type := {
  Status : option QueryExecutionStatus;
  Statistics : option QueryExecutionStatistics;
}.

Record GetQueryExecutionCommandOutput : Type := {
  QueryExecution : option QueryExecutionT;
}.

Record StartQueryExecutionCommandOutput : Type := {
  QueryExecutionId : option string;
}.

Record ColumnInfoT : Type := { Name : option string }.

(** A cell; [VarCharValue] is undefined for a null cell. *)
Record Datum : Type := { VarCharValue : option string }.

Record Row : Type := { Data : option (list Datum) }.

Record ResultSetMetadataT : Type := { ColumnInfo : option (list ColumnInfoT) }.

Record ResultSetT : Type := {
  Rows : option (list Row);
  ResultSetMetadata : option ResultSetMetadataT;
}.

Record GetQueryResultsCommandOutput : Type := { ResultSet : option ResultSetT }.

(** The members of [QueryExecutionState] the service compares against. *)
Module QueryExecutionState.
Definition QUEUED : string := "QUEUED".
Definition RUNNING : string := "RUNNING".
Definition SUCCEEDED : string := "SUCCEEDED".
Definition FAILED : string := "FAILED".
Definition CANCELLED : string := "CANCELLED".
End QueryExecutionState.

(** The three commands the service sends. *)
Inductive Command : Type :=
| StartQueryExecutionCommand (QueryString Database OutputLocation : string)
| GetQueryExecutionCommand (Id : string)
| GetQueryResultsCommand (Id : string) (MaxResults : Z).

(** What [client.send] resolves to for each command. *)
Definition Output (c : Command) : Type :=
  match c with
  | StartQueryExecutionCommand _ _ _ => StartQueryExecutionCommandOutput
  | GetQueryExecutionCommand _ => GetQueryExecutionCommandOutput
  | GetQueryResultsCommand _ _ => GetQueryResultsCommandOutput
  end.

(** ** The service's own types ([types.ts]) *)

Record QueryInput : Type := {
  database : string;
  query : string;
  maxRows : option Z;
  timeoutMs : option Z;
}.

(** A row object, [Record<string, unknown>]: a key can be present with the
    value [undefined], which is [Some None] on lookup. *)
Abbreviation RowObject := (gmap string (option string)).

Record QueryResult : Type := {
  columns : list string;
  rows : list RowObject;
  queryExecutionId : string;
  bytesScanned : Z;
  executionTime : Z;
}.

Record StatusStatistics : Type := {
  dataScannedInBytes : Z;
  engineExecutionTimeInMillis : Z;
}.

Record QueryStatus : Type := {
  state : string;
  stateChangeReason : option string;
  statistics : option StatusStatistics;
}.

(** [AthenaError]; the handle is the optional third field. *)
Record AthenaError : Type := {
  message : string;
  code : string;
  handle : option string;
}.

(** What [executeQuery] resolves to: the full result, or the bare object
    [{ queryExecutionId }]. *)
Inductive ExecuteQueryResult : Type :=
| FullResult (r : QueryResult)
| HandleOnly (id : string).

(** ** Thrown values *)

Inductive McpErrorCode : Type := InvalidParams | MethodNotFound.

Inductive thrown : Type :=
| InvalidRequestException (msg : string)
    (* the SDK's exception class that [instanceof] tests for *)
| ServiceException (name : string) (errcode : option string) (msg : string)
    (* anything else [client.send] rejects with *)
| JsError (msg : string)
    (* [new Error(msg)] *)
| ThrownObject (e : AthenaError)
    (* an object literal [{message, code, queryExecutionId?}] *)
| McpError (c : McpErrorCode) (msg : string)
    (* the SDK's [McpError], with the message its constructor has built *).

(** [error instanceof InvalidRequestException]. *)
Definition is_InvalidRequestException (e : thrown) : bool :=
  match e with InvalidRequestException _ => true | _ => false end.

(** ["code" in error]. *)
Definition has_code (e : thrown) : bool :=
  match e with
  | InvalidRequestException _ => false
  | ServiceException _ c _ => bool_decide (is_Some c)
  | JsError _ => false
  | ThrownObject _ => true
  | McpError _ _ => true
  end.

(** [error.code] when it is a string. *)
Definition string_code (e : thrown) : option string :=
  match e with
  | ServiceException _ c _ => c
  | ThrownObject e => Some (code e)
  | _ => None
  end.

(** ["message" in error], and [error.message]. *)
Definition has_message (e : thrown) : bool := true.

Definition message_of (e : thrown) : string :=
  match e with
  | InvalidRequestException m => m
  | ServiceException _ _ m => m
  | JsError m => m
  | ThrownObject e => message e
  | McpError _ m => m
  end.

(** ** Outcomes, the collaborators, and the effect monad *)

Inductive outcome (A : Type) : Type :=
| Return (a : A)
| Throw (e : thrown).
Arguments Return {A} a.
Arguments Throw {A} e.

(** The external collaborators over a world [W]: the service behind
    [client.send], the clock and the timer. *)
Class Collaborators (W : Type) : Type := {
  send : ∀ c : Command, W → outcome (Output c) * W;
  now : W → Z;
  elapse : Z → W → W;
}.

(** What the trace records: a request, stamped with the clock at the moment
    it is issued, and a suspension of the given length. *)
Inductive event : Type :=
| Sent (at_time : Z) (c : Command)
| Slept (ms : Z).

Definition is_status_request (ev : event) : bool :=
  match ev with Sent _ (GetQueryExecutionCommand _) => true | _ => false end.

Definition is_results_request (ev : event) : bool :=
  match ev with Sent _ (GetQueryResultsCommand _ _) => true | _ => false end.

Definition is_submission (ev : event) : bool :=
  match ev with Sent _ (StartQueryExecutionCommand _ _ _) => true | _ => false end.

Record St (W : Type) : Type := mkSt { world : W; trace : list event }.
Arguments mkSt {W} world trace.
Arguments world {W} s.
Arguments trace {W} s.

Definition M (W : Type) (A : Type) : Type := St W → outcome A * St W.

Section Monad.
Context {W : Type}.

Definition ret {A} (a : A) : M W A := λ st, (Return a, st).

Definition throw {A} (e : thrown) : M W A := λ st, (Throw e, st).

Definition bind {A B} (m : M W A) (k : A → M W B) : M W B :=
  λ st, match m st with
        | (Return a, st') => k a st'
        | (Throw e, st') => (Throw e, st')
        end.

(** [try { m } catch (error) { h error }]. *)
Definition try_catch {A} (m : M W A) (h : thrown → M W A) : M W A :=
  λ st, match m st with
        | (Return a, st') => (Return a, st')
        | (Throw e, st') => h e st'
        end.
End Monad.

Notation "'let!' x ':=' m 'in' k" := (bind m (λ x, k))
  (at level 10, x name, m at level 100, k at level 200).
Notation "'run!' m 'in' k" := (bind m (λ _, k))
  (at level 10, m at level 100, k at level 200).

Section Effects.
Context {W : Type} `{Collaborators W}.

(** [await this.client.send(c)]. *)
Definition client_send (c : Command) : M W (Output c) :=
  λ st, let (o, w') := send c (world st) in
        (o, mkSt w' (trace st ++ [Sent (now (world st)) c])).

(** [Date.now()]. *)
Definition Date_now : M W Z := λ st, (Return (now (world st)), st).

(** [await new Promise((resolve) => setTimeout(resolve, ms))]. *)
Definition sleep (ms : Z) : M W unit :=
  λ st, (Return tt, mkSt (elapse ms (world st)) (trace st ++ [Slept ms])).

(** The state after sending [c] from [st], when the service moves the world
    to [w']. *)
Definition after_send (c : Command) (st : St W) (w' : W) : St W :=
  mkSt w' (trace st ++ [Sent (now (world st)) c]).

(** A computation that only ever appends to the trace. *)
Definition extending {A} (m : M W A) : Prop :=
  ∀ st, ∃ evs, trace (snd (m st)) = trace st ++ evs.

End Effects.

(** ** The result decoder (inside [getQueryResults]) *)

(** [ResultSetMetadata?.ColumnInfo?.map((col) => col.Name || "") || []]. *)
Definition column_names (rs : ResultSetT) : list string :=
  match ResultSetMetadata rs ≫= ColumnInfo with
  | Some infos => map (λ col, or_string (Name col) "") infos
  | None => []
  end.

(** [obj[name] = v] on an object created as [{}], with [v] a string or
    [undefined].  The assignment creates or replaces the own property
    [name], for every name but ["__proto__"]: that one reaches the accessor
    inherited from [Object.prototype], whose setter ignores a value that is
    neither an object nor [null], and the object gets no property. *)
Definition set_property (name : string) (v : option string) (obj : RowObject)
    : RowObject :=
  if decide (name = "__proto__") then obj else <[name := v]> obj.

(** One step of [row.Data?.forEach((data, index) => ...)]: the assignment
    [obj[columns[index]] = data.VarCharValue], guarded by [columns[index]]
    being truthy (defined and not the empty string). *)
Definition assign_cell (columns : list string) (index : nat) (data : Datum)
    (obj : RowObject) : RowObject :=
  match columns !! index with
  | Some name =>
      if truthy_string name then set_property name (VarCharValue data) obj else obj
  | None => obj
  end.

Fixpoint forEach_cell (columns : list string) (index : nat) (cells : list Datum)
    (obj : RowObject) : RowObject :=
  match cells with
  | [] => obj
  | data :: cells' =>
      forEach_cell columns (S index) cells' (assign_cell columns index data obj)
  end.

(** The callback of [.map((row) => { ... return obj; })]. *)
Definition row_object (columns : list string) (row : Row) : RowObject :=
  match Data row with
  | Some cells => forEach_cell columns 0 cells ∅
  | None => ∅
  end.

(** [(ResultSet.Rows || []).slice(1).map(...)]. *)
Definition decode_rows (columns : list string) (rs : ResultSetT) : list RowObject :=
  map (row_object columns) (drop 1 (default [] (Rows rs))).

(** ** [AthenaService] *)

Section AthenaService.
Context {W : Type} `{Collaborators W}.

(** [this.outputLocation], read from [OUTPUT_S3_PATH] by the constructor. *)
Variable outputLocation : string.

Definition not_found : thrown :=
  ThrownObject {| message := "Query execution not found";
                  code := "QUERY_NOT_FOUND";
                  handle := None |}.

Definition timed_out (queryExecutionId : string) : thrown :=
  ThrownObject {| message := "Query timed out";
                  code := "TIMEOUT";
                  handle := Some queryExecutionId |}.

(** The [catch] clause shared by [getQueryStatus] and [getQueryResults]. *)
Definition rethrow_not_found {A} (error : thrown) : M W A :=
  if is_InvalidRequestException error then throw not_found else throw error.

Definition getQueryStatus (queryExecutionId : string) : M W QueryStatus :=
  try_catch
    (let! response := client_send (GetQueryExecutionCommand queryExecutionId) in
     match QueryExecution response with
     | None => throw not_found
     | Some qe =>
         ret {| state := or_string (Status qe ≫= State) "UNKNOWN";
                stateChangeReason := Status qe ≫= StateChangeReason;
                statistics := Some
                  {| dataScannedInBytes :=
                       or_number (Statistics qe ≫= DataScannedInBytes) 0;
                     engineExecutionTimeInMillis :=
                       or_number (Statistics qe ≫= EngineExecutionTimeInMillis) 0 |} |}
     end)
    rethrow_not_found.

Definition still_running (queryExecutionId : string) : thrown :=
  ThrownObject {| message := "Query is still running";
                  code := "QUERY_STILL_RUNNING";
                  handle := Some queryExecutionId |}.

Definition failed_with (queryExecutionId : string) (reason : option string) : thrown :=
  ThrownObject {| message := or_string reason "Query failed";
                  code := "QUERY_FAILED";
                  handle := Some queryExecutionId |}.

Definition unexpected_state (queryExecutionId : string) (state : string) : thrown :=
  ThrownObject {| message := "Unexpected query state: " +:+ state;
                  code := "UNEXPECTED_STATE";
                  handle := Some queryExecutionId |}.

Definition getQueryResults (queryExecutionId : string) (maxRows : option Z)
    : M W QueryResult :=
  try_catch
    (let! status := getQueryStatus queryExecutionId in
     if bool_decide (state status = QueryExecutionState.RUNNING)
        || bool_decide (state status = QueryExecutionState.QUEUED)
     then throw (still_running queryExecutionId)
     else if bool_decide (state status = QueryExecutionState.FAILED)
     then throw (failed_with queryExecutionId (stateChangeReason status))
     else if bool_decide (state status ≠ QueryExecutionState.SUCCEEDED)
     then throw (unexpected_state queryExecutionId (state status))
     else
       let! results := client_send (GetQueryResultsCommand queryExecutionId
                                      (or_number maxRows 1000)) in
       match ResultSet results with
       | None => throw (JsError "No results returned from query")
       | Some rs =>
           let columns := column_names rs in
           let rows := decode_rows columns rs in
           ret {| columns := columns;
                  rows := rows;
                  queryExecutionId := queryExecutionId;
                  bytesScanned :=
                    or_number (dataScannedInBytes <$> statistics status) 0;
                  executionTime :=
                    or_number (engineExecutionTimeInMillis <$> statistics status) 0 |}
       end)
    rethrow_not_found.

(** [response.QueryExecution?.Status?.State]. *)
Definition observed_state (response : GetQueryExecutionCommandOutput) : option string :=
  (QueryExecution response ≫= Status) ≫= State.

(** [response.QueryExecution?.Status?.StateChangeReason]. *)
Definition observed_reason (response : GetQueryExecutionCommandOutput) : option string :=
  (QueryExecution response ≫= Status) ≫= StateChangeReason.

(** [timeoutMs && Date.now() - startTime >= timeoutMs], with [t] the value
    of [Date.now()]. *)
Definition budget_exhausted (timeoutMs : option Z) (startTime t : Z) : bool :=
  match timeoutMs with
  | Some ms => truthy_number ms && (ms <=? t - startTime)%Z
  | None => false
  end.

(** The [while (attempts < maxAttempts)] loop of [waitForQueryCompletion],
    by recursion on [maxAttempts - attempts]: every pass through the body
    that does not leave the loop ends in [attempts++]. *)
Fixpoint poll (remaining : nat) (queryExecutionId : string) (timeoutMs : option Z)
    (startTime : Z) : M W GetQueryExecutionCommandOutput :=
  match remaining with
  | O => throw (timed_out queryExecutionId)
  | S remaining' =>
      let! t := Date_now in
      if budget_exhausted timeoutMs startTime t
      then throw (timed_out queryExecutionId)
      else
        let! response := client_send (GetQueryExecutionCommand queryExecutionId) in
        let state := observed_state response in
        if bool_decide (state = Some QueryExecutionState.SUCCEEDED)
        then ret response
        else if bool_decide (state = Some QueryExecutionState.FAILED)
                || bool_decide (state = Some QueryExecutionState.CANCELLED)
        then throw (failed_with queryExecutionId (observed_reason response))
        else
          run! sleep 1000 in
          poll remaining' queryExecutionId timeoutMs startTime
  end.

Definition waitForQueryCompletion (queryExecutionId : string)
    (maxAttempts : option nat) (timeoutMs : option Z)
    : M W GetQueryExecutionCommandOutput :=
  let! startTime := Date_now in
  poll (default 100%nat maxAttempts) queryExecutionId timeoutMs startTime.


(** The inner [catch] of [executeQuery]: an error object whose [code] is
    ["TIMEOUT"] becomes the bare handle, anything else is thrown again. *)
Definition on_timeout_return_handle (queryExecutionId : string) (error : thrown)
    : M W ExecuteQueryResult :=
  if has_code error && bool_decide (string_code error = Some "TIMEOUT")
  then ret (HandleOnly queryExecutionId)
  else throw error.

(** The outer [catch] of [executeQuery]. *)
Definition rethrow_invalid_request {A} (error : thrown) : M W A :=
  match error with
  | InvalidRequestException msg =>
      throw (ThrownObject {| message := msg; code := "INVALID_REQUEST"; handle := None |})
  | _ => throw error
  end.

Definition executeQuery (input : QueryInput) : M W ExecuteQueryResult :=
  try_catch
    (let! startResponse :=
       client_send (StartQueryExecutionCommand (query input) (database input)
                      outputLocation) in
     match QueryExecutionId startResponse with
     | Some id =>
         if truthy_string id then
           let timeoutMs := or_number (timeoutMs input) 60000 in
           let! startTime := Date_now in
           try_catch
             (let! queryExecution :=
                waitForQueryCompletion id (Some 100%nat) (Some timeoutMs) in
              let! result := getQueryResults id (maxRows input) in
              ret (FullResult result))
             (on_timeout_return_handle id)
         else throw (JsError "Failed to start query execution")
     | None => throw (JsError "Failed to start query execution")
     end)
    rethrow_invalid_request.

End AthenaService.

(** ** The tool surface: the [CallToolRequestSchema] handler of [index.ts] *)

(** [request.params]. *)
Record CallToolRequest : Type := {
  name : string;
  arguments : option (gmap string value);
}.

(** [args.key], [undefined] when the property is absent. *)
Definition prop (args : gmap string value) (key : string) : value :=
  default VUndefined (args !! key).

(** [request.params.arguments?.key]. *)
Definition opt_prop (args : option (gmap string value)) (key : string) : value :=
  match args with
  | Some a => prop a key
  | None => VUndefined
  end.

(** A value narrowed to [string] by a preceding [typeof] test. *)
Definition as_string (v : value) : string :=
  match v with VString s => s | _ => "" end.

(** [typeof v === 'number' ? v : undefined]. *)
Definition number_or_undefined (v : value) : option Z :=
  match v with VNumber n => Some n | _ => None end.

(** What the handler passes to [JSON.stringify(_, null, 2)]. *)
Inductive Jsonable : Type :=
| OfExecuteQuery (r : ExecuteQueryResult)
| OfQueryResult (r : QueryResult)
| OfQueryStatus (s : QueryStatus).

Inductive Text : Type :=
| JSON_stringify (v : Jsonable)
| Literal (s : string).

(** [{ content: [{ type: "text", text }], isError }]; an absent [isError]
    is [false]. *)
Record CallToolResult : Type := {
  content : Text;
  isError : bool;
}.

Section AthenaServer.
Context {W : Type} `{Collaborators W}.
Variable outputLocation : string.

(** The message that the SDK's [McpError] constructor builds from the code
    and the text it is given. *)
Variable McpError_message : McpErrorCode → string → string.

(** [new McpError(c, msg)]. *)
Definition new_McpError (c : McpErrorCode) (msg : string) : thrown :=
  McpError c (McpError_message c msg).

Definition invalid_run_query_params : thrown :=
  new_McpError InvalidParams
    "Missing or invalid required parameters: database (string) and query (string)".

Definition invalid_handle_param : thrown :=
  new_McpError InvalidParams
    "Missing or invalid required parameter: queryExecutionId (string)".

Definition text_result (v : Jsonable) : CallToolResult :=
  {| content := JSON_stringify v; isError := false |}.

(** The [switch (request.params.name)] inside the [try]. *)
Definition dispatch (request : CallToolRequest) : M W CallToolResult :=
  if bool_decide (name request = "run_query") then
    match arguments request with
    | None => throw invalid_run_query_params
    | Some args =>
        if negb (is_string (prop args "database"))
           || negb (is_string (prop args "query"))
        then throw invalid_run_query_params
        else
          let queryInput :=
            {| database := as_string (prop args "database");
               query := as_string (prop args "query");
               maxRows := number_or_undefined (prop args "maxRows");
               timeoutMs := number_or_undefined (prop args "timeoutMs") |} in
          let! result := executeQuery outputLocation queryInput in
          ret (text_result (OfExecuteQuery result))
    end
  else if bool_decide (name request = "get_result") then
    let id := opt_prop (arguments request) "queryExecutionId" in
    if negb (truthy id) || negb (is_string id)
    then throw invalid_handle_param
    else
      let maxRows := number_or_undefined (opt_prop (arguments request) "maxRows") in
      let! result := getQueryResults (as_string id) maxRows in
      ret (text_result (OfQueryResult result))
  else if bool_decide (name request = "get_status") then
    let id := opt_prop (arguments request) "queryExecutionId" in
    if negb (truthy id) || negb (is_string id)
    then throw invalid_handle_param
    else
      let! status := getQueryStatus (as_string id) in
      ret (text_result (OfQueryStatus status))
  else
    throw (new_McpError MethodNotFound ("Unknown tool: " +:+ name request)).

(** The handler's [catch]: an error object with a [code] and a [message]
    becomes an error result, anything else is thrown again. *)
Definition error_result (error : thrown) : M W CallToolResult :=
  if has_code error && has_message error
  then ret {| content := Literal ("Error: " +:+ message_of error); isError := true |}
  else throw error.

Definition call_tool (request : CallToolRequest) : M W CallToolResult :=
  try_catch (dispatch request) error_result.

(** The input that the [run_query] case builds from a request: there is one
    when the arguments are given and [database] and [query] are strings. *)
Definition run_query_input (request : CallToolRequest) : option QueryInput :=
  match arguments request with
  | Some args =>
      match prop args "database", prop args "query" with
      | VString d, VString q =>
          Some {| database := d;
                  query := q;
                  maxRows := number_or_undefined (prop args "maxRows");
                  timeoutMs := number_or_undefined (prop args "timeoutMs") |}
      | _, _ => None
      end
  | None => None
  end.

End AthenaServer.

(** ** A scripted service, for running the code on concrete inputs *)

Module Fake.

(** The world of the scripted service: the clock, what a submission is
    answered with, the answers to the successive status requests (the last
    one repeats; [RUNNING] when there is none), the answer to a result
    request, and how long each request takes. *)
Record scripted : Type := {
  clock : Z;
  on_start : outcome StartQueryExecutionCommandOutput;
  on_status : list (outcome GetQueryExecutionCommandOutput);
  on_results : outcome GetQueryResultsCommandOutput;
  latency : Z;
}.

Definition in_state (s : string) (reason : option string)
    : GetQueryExecutionCommandOutput :=
  {| QueryExecution := Some
       {| Status := Some {| State := Some s; StateChangeReason := reason |};
          Statistics := Some {| DataScannedInBytes := Some 2048%Z;
                                EngineExecutionTimeInMillis := Some 37%Z |} |} |}.

Definition tick (w : scripted) : scripted :=
  {| clock := (clock w + latency w)%Z;
     on_start := on_start w;
     on_status := on_status w;
     on_results := on_results w;
     latency := latency w |}.

Definition next_status (w : scripted) : outcome GetQueryExecutionCommandOutput * scripted :=
  match on_status w with
  | [] => (Return (in_state "RUNNING" None), tick w)
  | [o] => (o, tick w)
  | o :: rest =>
      (o, tick {| clock := clock w;
                  on_start := on_start w;
                  on_status := rest;
                  on_results := on_results w;
                  latency := latency w |})
  end.

Definition fake_send (c : Command) : scripted → outcome (Output c) * scripted :=
  match c as c0 return scripted → outcome (Output c0) * scripted with
  | StartQueryExecutionCommand _ _ _ => λ w, (on_start w, tick w)
  | GetQueryExecutionCommand _ => next_status
  | GetQueryResultsCommand _ _ => λ w, (on_results w, tick w)
  end.

Definition fake_elapse (ms : Z) (w : scripted) : scripted :=
  {| clock := (clock w + ms)%Z;
     on_start := on_start w;
     on_status := on_status w;
     on_results := on_results w;
     latency := latency w |}.

#[global] Instance collaborators : Collaborators scripted :=
  {| send := fake_send; now := clock; elapse := fake_elapse |}.

Definition started (id : string) : outcome StartQueryExecutionCommandOutput :=
  Return {| QueryExecutionId := Some id |}.

Definition cell (s : string) : Datum := {| VarCharValue := Some s |}.
Definition null_cell : Datum := {| VarCharValue := None |}.
Definition row (cells : list Datum) : Row := {| Data := Some cells |}.
Definition named (s : string) : ColumnInfoT := {| Name := Some s |}.

Definition result_set (infos : list ColumnInfoT) (rows : list Row) : ResultSetT :=
  {| Rows := Some rows;
     ResultSetMetadata := Some {| ColumnInfo := Some infos |} |}.

Definition no_results : outcome GetQueryResultsCommandOutput :=
  Return {| ResultSet := None |}.

Definition initial (w : scripted) : St scripted := mkSt w [].

(** The message of an [McpError], as the SDK formats it. *)
Definition mcp_message (c : McpErrorCode) (msg : string) : string :=
  "MCP error "
  +:+ match c with InvalidParams => "-32602" | MethodNotFound => "-32601" end
  +:+ ": " +:+ msg.

End Fake.

(** ** What a run of the poll loop may leave in the trace, and how it may end *)

Section PollObservations.
Context {W : Type} `{Collaborators W}.

(** An event of the poll loop for [id]: a status request for [id], issued
    while the budget was not exhausted, or the fixed suspension. *)
Definition poll_event (id : string) (timeoutMs : option Z) (startTime : Z)
    (ev : event) : Prop :=
  match ev with
  | Sent t c =>
      c = GetQueryExecutionCommand id ∧ budget_exhausted timeoutMs startTime t = false
  | Slept ms => ms = 1000%Z
  end.

(** The verdicts of the poll loop after [requests] status requests, with
    the clock at [final] when it ends: a response of the service that
    reported SUCCEEDED; the [TIMEOUT] error, when the attempts are used up
    or the budget is exhausted; the [QUERY_FAILED] error built from a
    response of the service that reported FAILED or CANCELLED; or what the
    service rejected a status request with. *)
Definition poll_verdict (id : string) (timeoutMs : option Z) (startTime : Z)
    (maxAttempts requests : nat) (final : Z)
    (o : outcome GetQueryExecutionCommandOutput) : Prop :=
  match o with
  | Return response =>
      observed_state response = Some "SUCCEEDED"
      ∧ ∃ w w', send (GetQueryExecutionCommand id) w = (Return response, w')
  | Throw e =>
      (e = timed_out id
       ∧ (requests = maxAttempts ∨ budget_exhausted timeoutMs startTime final = true))
      ∨ (∃ response w w',
           send (GetQueryExecutionCommand id) w = (Return response, w')
           ∧ (observed_state response = Some "FAILED"
              ∨ observed_state response = Some "CANCELLED")
           ∧ e = failed_with id (observed_reason response))
      ∨ (∃ w w', send (GetQueryExecutionCommand id) w = (Throw e, w'))
  end.

(** [observed_state response] is none of the terminal states. *)
Definition non_terminal (response : GetQueryExecutionCommandOutput) : Prop :=
  observed_state response ∉ [Some "SUCCEEDED"; Some "FAILED"; Some "CANCELLED"].

(** The message of the [QUERY_FAILED] error: the stated reason when there is
    one (and it is not empty), the generic message otherwise. *)
Definition failure_message (reason : option string) : string :=
  match reason with
  | Some r => if decide (r = "") then "Query failed" else r
  | None => "Query failed"
  end.

End PollObservations.

(** ** Start-up: the constructors of [AthenaService] and [AthenaServer] *)

(** What the constructor of [AthenaService] keeps: the output location, and
    the profile and region it configures the client with. *)
Record AthenaServiceT : Type := {
  outputLocation : string;
  profile : option string;
  region : option string;
}.

(** [new AthenaService()], with [env] for [process.env]. *)
Definition new_AthenaService (env : gmap string string) : outcome AthenaServiceT :=
  match env !! "OUTPUT_S3_PATH" with
  | Some path =>
      if truthy_string path
      then Return {| outputLocation := path;
                     profile := env !! "AWS_PROFILE";
                     region := env !! "AWS_REGION" |}
      else Throw (JsError "OUTPUT_S3_PATH environment variable is required")
  | None => Throw (JsError "OUTPUT_S3_PATH environment variable is required")
  end.

(** [new AthenaServer()]: the server holds the service it has constructed. *)
Record AthenaServerT : Type := { athenaService : AthenaServiceT }.

Definition new_AthenaServer (env : gmap string string) : outcome AthenaServerT :=
  match new_AthenaService env with
  | Return service => Return {| athenaService := service |}
  | Throw e => Throw e
  end.

(** The [CallToolRequestSchema] handler of a constructed server. *)
Definition server_call_tool {W : Type} `{Collaborators W} (server : AthenaServerT)
    (McpError_message : McpErrorCode → string → string)
    (request : CallToolRequest) : M W CallToolResult :=
  call_tool (outputLocation (athenaService server)) McpError_message request.

(** ** The [ListToolsRequestSchema] handler *)

(** A property of an [inputSchema]. *)
Record SchemaProperty : Type := {
  type : string;
  description : string;
  minimum : option Z;
  maximum : option Z;
}.

Record Tool : Type := {
  tool_name : string;
  tool_description : string;
  properties : list (string * SchemaProperty);
  required : list string;
}.

Definition string_property (description : string) : SchemaProperty :=
  {| type := "string"; description := description; minimum := None; maximum := None |}.

Definition maxRows_property : SchemaProperty :=
  {| type := "number";
     description := "Maximum number of rows to return (default: 1000)";
     minimum := Some 1%Z;
     maximum := Some 10000%Z |}.

Definition tools : list Tool :=
  [ {| tool_name := "run_query";
       tool_description := "Execute a SQL query using AWS Athena. Returns full results if query completes before timeout, otherwise returns queryExecutionId.";
       properties :=
         [ ("database", string_property "The Athena database to query");
           ("query", string_property "SQL query to execute");
           ("maxRows", maxRows_property);
           ("timeoutMs", {| type := "number";
                            description := "Timeout in milliseconds (default: 60000)";
                            minimum := Some 1000%Z;
                            maximum := None |}) ];
       required := ["database"; "query"] |};
    {| tool_name := "get_result";
       tool_description := "Get results for a completed query. Returns error if query is still running.";
       properties :=
         [ ("queryExecutionId", string_property "The query execution ID");
           ("maxRows", maxRows_property) ];
       required := ["queryExecutionId"] |};
    {| tool_name := "get_status";
       tool_description := "Get the current status of a query execution";
       properties :=
         [ ("queryExecutionId", string_property "The query execution ID") ];
       required := ["queryExecutionId"] |} ].

(** ** Predicates on traces and errors *)

Definition is_sent (ev : event) : bool :=
  match ev with Sent _ _ => true | Slept _ => false end.

(** An event that follows the submission of the query [id]: a status or
    result request for [id], or a suspension. *)
Definition for_handle (id : string) (ev : event) : Prop :=
  match ev with
  | Sent _ (GetQueryExecutionCommand i) => i = id
  | Sent _ (GetQueryResultsCommand i _) => i = id
  | Sent _ (StartQueryExecutionCommand _ _ _) => False
  | Slept _ => True
  end.

(** The handle a submission has produced: the [QueryExecutionId] of the
    response, when there is one and it is truthy. *)
Definition submitted_handle (o : outcome StartQueryExecutionCommandOutput)
    : option string :=
  match o with
  | Return response =>
      match QueryExecutionId response with
      | Some id => if truthy_string id then Some id else None
      | None => None
      end
  | Throw _ => None
  end.

(** What the outer [catch] of [executeQuery] throws for [error]. *)
Definition as_invalid_request (error : thrown) : thrown :=
  match error with
  | InvalidRequestException msg =>
      ThrownObject {| message := msg; code := "INVALID_REQUEST"; handle := None |}
  | _ => error
  end.

(** What the two [catch] clauses of [executeQuery] make of an error raised
    after the submission of [id]. *)
Definition settle (id : string) (error : thrown) : outcome ExecuteQueryResult :=
  if has_code error && bool_decide (string_code error = Some "TIMEOUT")
  then Return (HandleOnly id)
  else Throw (as_invalid_request error).

(** A clock that [send] never turns back and that a suspension of [ms]
    advances by at least [ms], in the worlds that satisfy [Inv]. *)
Definition lawful_clock {W : Type} `{Collaborators W} (Inv : W → Prop) : Prop :=
  (∀ (c : Command) (w w' : W) (o : outcome (Output c)),
     Inv w → send c w = (o, w') → Inv w' ∧ (now w ≤ now w')%Z)
  ∧ (∀ (ms : Z) (w : W),
       Inv w → Inv (elapse ms w) ∧ (now w + ms ≤ now (elapse ms w))%Z).

(** ** Predicates on tool arguments *)

(** The handle that [get_result] and [get_status] accept: the argument when
    it is a string and truthy. *)
Definition valid_handle (v : value) : option string :=
  match v with
  | VString s => if truthy_string s then Some s else None
  | _ => None
  end.

(** The number of rows asked of the service for a [maxRows] argument. *)
Definition row_limit (v : value) : Z :=
  match v with
  | VNumber n => if (n =? 0)%Z then 1000%Z else n
  | _ => 1000%Z
  end.

(** The error result that the handler's [catch] makes of an [McpError]
    built from the code [c] and the text [msg]. *)
Definition mcp_error_result (McpError_message : McpErrorCode → string → string)
    (c : McpErrorCode) (msg : string) : CallToolResult :=
  {| content := Literal ("Error: " +:+ McpError_message c msg); isError := true |}.

(** ** Scenarios *)

Module Scenario.
Import Fake.

(** A service that does not know the handle it is asked about. *)
Definition unknown_handle : scripted :=
  {| clock := 0;
     on_start := started "h-1";
     on_status := [Throw (InvalidRequestException "QueryExecution h-9 was not found")];
     on_results := no_results;
     latency := 5 |}.

(** A query that is still running whenever it is asked about. *)
Definition running : scripted :=
  {| clock := 0;
     on_start := started "h-1";
     on_status := [Return (in_state "RUNNING" None)];
     on_results := no_results;
     latency := 5 |}.

(** A query the service reports as failed, with a reason. *)
Definition failing : scripted :=
  {| clock := 0;
     on_start := started "h-1";
     on_status := [Return (in_state "FAILED" (Some "syntax error"))];
     on_results := no_results;
     latency := 5 |}.

(** The running query, looked at 2500 ms later. *)
Definition late : scripted := fake_elapse 2500 running.

(** A call that waits at most three seconds. *)
Definition impatient : QueryInput :=
  {| database := "sales"; query := "SELECT 1"; maxRows := None; timeoutMs := Some 3000%Z |}.

(** The result set of two data rows under the header row
    [["col_a", "col_b"]]; the last cell is null. *)
Definition table : ResultSetT :=
  result_set [named "col_a"; named "col_b"]
    [row [cell "col_a"; cell "col_b"];
     row [cell "1"; cell "x"];
     row [cell "2"; null_cell]].

(** A query that has succeeded, with [table] as its result. *)
Definition succeeded : scripted :=
  {| clock := 0;
     on_start := started "h-1";
     on_status := [Return (in_state "SUCCEEDED" None)];
     on_results := Return {| ResultSet := Some table |};
     latency := 5 |}.

(** [run_query] and [get_result] requests. *)
Definition run_query_request (database query maxRows : value) : CallToolRequest :=
  {| name := "run_query";
     arguments := Some (<["database" := database]>
                        (<["query" := query]> (<["maxRows" := maxRows]> ∅))) |}.

Definition get_result_request (id maxRows : value) : CallToolRequest :=
  {| name := "get_result";
     arguments := Some (<["queryExecutionId" := id]> (<["maxRows" := maxRows]> ∅)) |}.

(** A [run_query] call whose database and query are the empty string. *)
Definition empty_strings : CallToolRequest :=
  run_query_request (VString "") (VString "") VUndefined.

(** A [run_query] call whose database is a number. *)
Definition numeric_database : CallToolRequest :=
  run_query_request (VNumber 7) (VString "SELECT 1") VUndefined.

(** [run_query] and [get_result] calls that ask for 10001 rows. *)
Definition run_query_10001 : CallToolRequest :=
  run_query_request (VString "sales") (VString "SELECT 1") (VNumber 10001).

Definition get_result_10001 : CallToolRequest :=
  get_result_request (VString "h-1") (VNumber 10001).



(** The [run_query] call that [impatient] is built from. *)
Definition impatient_request : CallToolRequest :=
  {| name := "run_query";
     arguments := Some (<["database" := VString "sales"]>
                        (<["query" := VString "SELECT 1"]>
                         (<["timeoutMs" := VNumber 3000]> ∅))) |}.

(** A service that rejects the submission as malformed. *)
Definition rejecting : scripted :=
  {| clock := 0;
     on_start := Throw (InvalidRequestException "line 1:8: mismatched input");
     on_status := [];
     on_results := no_results;
     latency := 5 |}.

(** A service that forgets the query while it is being polled. *)
Definition forgetting : scripted :=
  {| clock := 0;
     on_start := started "h-1";
     on_status := [Return (in_state "RUNNING" None);
                   Throw (InvalidRequestException "QueryExecution h-1 was not found")];
     on_results := no_results;
     latency := 5 |}.

(** A call with the default budget and row limit. *)
Definition plain : QueryInput :=
  {| database := "sales"; query := "SELECT 1"; maxRows := None; timeoutMs := None |}.

(** A query that was cancelled. *)
Definition cancelled : scripted :=
  {| clock := 0;
     on_start := started "h-1";
     on_status := [Return (in_state "CANCELLED" (Some "user request"))];
     on_results := no_results;
     latency := 5 |}.

(** A service whose status responses carry no execution at all. *)
Definition blank : scripted :=
  {| clock := 0;
     on_start := started "h-1";
     on_status := [Return {| QueryExecution := None |}];
     on_results := no_results;
     latency := 5 |}.

(** A [get_status] call without arguments, a call to a tool that does not
    exist, and a [get_result] call whose [maxRows] is a string. *)
Definition get_status_bare : CallToolRequest :=
  {| name := "get_status"; arguments := None |}.

Definition drop_table : CallToolRequest :=
  {| name := "drop_table"; arguments := Some ∅ |}.

Definition get_result_fifty : CallToolRequest :=
  get_result_request (VString "h-1") (VString "50").

(** A [get_result] call whose handle is the empty string. *)
Definition get_result_empty_handle : CallToolRequest :=
  get_result_request (VString "") VUndefined.

(** A service that answers the result request with no result set. *)
Definition succeeded_without_results : scripted :=
  {| clock := 0;
     on_start := started "h-1";
     on_status := [Return (in_state "SUCCEEDED" None)];
     on_results := no_results;
     latency := 5 |}.

(** A call whose budget is negative. *)
Definition hasty : QueryInput :=
  {| database := "sales"; query := "SELECT 1"; maxRows := None; timeoutMs := Some (-1)%Z |}.

(** The environment of a configured server. *)
Definition configured : gmap string string :=
  <["OUTPUT_S3_PATH" := "s3://results/"]> (<["AWS_REGION" := "eu-west-1"]> ∅).

(** A result whose first column is named [__proto__]. *)
Definition proto_column : ResultSetT :=
  result_set [named "__proto__"; named "b"]
    [row [cell "__proto__"; cell "b"];
     row [cell "1"; cell "2"]].

End Scenario.

(** * Properties *)

(** ** Running a request: the state after [client.send] *)

Section StatusQuery.
Context {W : Type} `{Collaborators W}.

Lemma client_send_eq (c : Command) (st : St W) (o : outcome (Output c)) (w' : W) :
  send c (world st) = (o, w') →
  client_send c st = (o, after_send c st w').
Proof. intros Hs. unfold client_send. now rewrite Hs. Qed.

Lemma client_send_trace (c : Command) (st : St W) :
  trace (snd (client_send c st)) = trace st ++ [Sent (now (world st)) c].
Proof. unfold client_send. now destruct (send c (world st)). Qed.

(** ** The status query *)

Lemma getQueryStatus_eq (id : string) (st : St W) o w' :
  send (GetQueryExecutionCommand id) (world st) = (o, w') →
  ∃ o', getQueryStatus id st = (o', after_send (GetQueryExecutionCommand id) st w').
Proof.
  intros Hs. unfold getQueryStatus, try_catch, bind.
  rewrite (client_send_eq _ _ _ _ Hs).
  destruct o as [r|e]; cbn.
  - destruct (QueryExecution r); cbn; eauto.
  - unfold rethrow_not_found. destruct (is_InvalidRequestException e); cbn; eauto.
Qed.

(** What [getQueryStatus] throws is never an [InvalidRequestException]: the
    [catch] has replaced it. *)
Lemma getQueryStatus_throws (id : string) (st st' : St W) e :
  getQueryStatus id st = (Throw e, st') → is_InvalidRequestException e = false.
Proof.
  unfold getQueryStatus, try_catch, bind, client_send.
  destruct (send _ (world st)) as [[r|e0] w']; cbn.
  - destruct (QueryExecution r); cbn; intros [= <- <-]; reflexivity.
  - unfold rethrow_not_found.
    destruct (is_InvalidRequestException e0) eqn:E; cbn; intros [= <- <-]; auto.
Qed.

(** C9. When the service rejects the status request of [getQueryStatus]
    with its [InvalidRequestException] (the handle is unrecognized or
    invalid), the operation fails with the error object whose code is
    [QUERY_NOT_FOUND]; any other rejection is thrown again unchanged. *)
Theorem getQueryStatus_rejection (id : string) (st : St W) (e : thrown) (w' : W) :
  send (GetQueryExecutionCommand id) (world st) = (Throw e, w') →
  let st' := after_send (GetQueryExecutionCommand id) st w' in
  (is_InvalidRequestException e = true →
     ∃ err, getQueryStatus id st = (Throw (ThrownObject err), st')
            ∧ code err = "QUERY_NOT_FOUND"
            ∧ message err = "Query execution not found")
  ∧ (is_InvalidRequestException e = false →
     getQueryStatus id st = (Throw e, st')).
Proof.
  intros Hs st'. unfold getQueryStatus, try_catch, bind.
  rewrite (client_send_eq _ _ _ _ Hs). cbn. unfold rethrow_not_found.
  split; intros ->; cbn; [| reflexivity].
  eexists; repeat split.
Qed.

End StatusQuery.

Lemma getQueryStatus_rejection_witness :
  ∃ err st',
    getQueryStatus "h-9" (Fake.initial Scenario.unknown_handle) = (Throw (ThrownObject err), st')
    ∧ code err = "QUERY_NOT_FOUND".
Proof.
  assert (Hs : send (GetQueryExecutionCommand "h-9")
                 (world (Fake.initial Scenario.unknown_handle))
               = (Throw (InvalidRequestException "QueryExecution h-9 was not found"),
                  Fake.tick Scenario.unknown_handle)) by reflexivity.
  destruct (getQueryStatus_rejection _ _ _ _ Hs) as [Hnf _].
  destruct (Hnf eq_refl) as (err & Heq & Hcode & _).
  exists err. eexists. split; [exact Heq | exact Hcode].
Defined.

(** ** The policy of [getQueryResults] on the observed state *)

Section ResultFetch.
Context {W : Type} `{Collaborators W}.

(** The status query issues exactly one request, the status request. *)
Lemma getQueryStatus_trace (id : string) (st st1 : St W) o :
  getQueryStatus id st = (o, st1) →
  trace st1 = trace st ++ [Sent (now (world st)) (GetQueryExecutionCommand id)].
Proof.
  intros Hq.
  destruct (send (GetQueryExecutionCommand id) (world st)) as [o0 w'] eqn:Hs.
  destruct (getQueryStatus_eq id st o0 w' Hs) as [o' Heq].
  rewrite Heq in Hq. injection Hq as _ <-. reflexivity.
Qed.

(** When the status query itself fails, so does the fetch, with the same
    error and without any further request. *)
Lemma getQueryResults_status_throws (id : string) (maxRows : option Z)
    (st st1 : St W) e :
  getQueryStatus id st = (Throw e, st1) →
  getQueryResults id maxRows st = (Throw e, st1).
Proof.
  intros Hq. unfold getQueryResults, try_catch, bind. rewrite Hq.
  unfold rethrow_not_found. now rewrite (getQueryStatus_throws _ _ _ _ Hq).
Qed.

Ltac policy_case :=
  split_and!; intros Hh;
  first
    [ solve [congruence]
    | solve [destruct Hh; congruence]
    | solve [exfalso;
             match goal with
             | He : state _ = _ |- _ =>
                 apply Hh; rewrite He; rewrite !elem_of_cons; auto 10
             end]
    | solve [split; [reflexivity | eexists; split_and!; reflexivity]]
    | assumption
    | reflexivity ].

(** C6. The status that [getQueryResults] has just queried decides the
    branch: RUNNING or QUEUED fails with [QUERY_STILL_RUNNING], FAILED with
    [QUERY_FAILED], any other state but SUCCEEDED with [UNEXPECTED_STATE]
    naming the state, each carrying the handle and leaving the state as the
    status query left it (no result request is sent); on SUCCEEDED, and
    only then, the result request is sent. *)
Theorem getQueryResults_policy (id : string) (maxRows : option Z)
    (st st1 : St W) (status : QueryStatus) :
  getQueryStatus id st = (Return status, st1) →
  ∃ o st2, getQueryResults id maxRows st = (o, st2) ∧
    (state status = "RUNNING" ∨ state status = "QUEUED" →
       st2 = st1 ∧
       ∃ err, o = Throw (ThrownObject err) ∧ code err = "QUERY_STILL_RUNNING"
              ∧ handle err = Some id) ∧
    (state status = "FAILED" →
       st2 = st1 ∧
       ∃ err, o = Throw (ThrownObject err) ∧ code err = "QUERY_FAILED"
              ∧ message err = or_string (stateChangeReason status) "Query failed"
              ∧ handle err = Some id) ∧
    (state status ∉ ["RUNNING"; "QUEUED"; "FAILED"; "SUCCEEDED"] →
       st2 = st1 ∧
       ∃ err, o = Throw (ThrownObject err) ∧ code err = "UNEXPECTED_STATE"
              ∧ message err = "Unexpected query state: " +:+ state status
              ∧ handle err = Some id) ∧
    (state status = "SUCCEEDED" →
       trace st2 = trace st1 ++
         [Sent (now (world st1)) (GetQueryResultsCommand id (or_number maxRows 1000))]) ∧
    (state status ≠ "SUCCEEDED" →
       List.filter is_results_request (trace st2) = List.filter is_results_request (trace st)).
Proof.
  intros Hq. pose proof (getQueryStatus_trace _ _ _ _ Hq) as Htr.
  assert (Hnone : List.filter is_results_request (trace st1)
                  = List.filter is_results_request (trace st)).
  { rewrite Htr, List.filter_app. cbn. now rewrite app_nil_r. }
  unfold getQueryResults, try_catch, bind. rewrite Hq.
  unfold QueryExecutionState.RUNNING, QueryExecutionState.QUEUED,
    QueryExecutionState.FAILED, QueryExecutionState.SUCCEEDED.
  repeat case_bool_decide; cbn [orb negb];
    try (unfold client_send; destruct (send _ (world st1)) as [[r|e] w2];
         [destruct (ResultSet r)
         |unfold rethrow_not_found; destruct (is_InvalidRequestException e)]);
    cbn; do 2 eexists; (split; [reflexivity|]); policy_case.
Qed.

End ResultFetch.

Lemma getQueryResults_policy_witness :
  ∃ err,
    getQueryResults "h-1" (Some 10%Z) (Fake.initial Scenario.running)
    = (Throw (ThrownObject err),
       mkSt (Fake.tick Scenario.running) [Sent 0 (GetQueryExecutionCommand "h-1")])
    ∧ code err = "QUERY_STILL_RUNNING" ∧ handle err = Some "h-1".
Proof.
  assert (Hq : getQueryStatus "h-1" (Fake.initial Scenario.running)
               = (Return {| state := "RUNNING";
                            stateChangeReason := None;
                            statistics := Some {| dataScannedInBytes := 2048;
                                                  engineExecutionTimeInMillis := 37 |} |},
                  mkSt (Fake.tick Scenario.running)
                       [Sent 0 (GetQueryExecutionCommand "h-1")]))
    by reflexivity.
  destruct (getQueryResults_policy "h-1" (Some 10%Z) _ _ _ Hq)
    as (o & st2 & Heq & Hrun & _).
  destruct (Hrun (or_introl eq_refl)) as (-> & err & -> & Hcode & Hhandle).
  exists err. repeat split; assumption.
Defined.

(** ** The poll loop *)

Section PollLoop.
Context {W : Type} `{Collaborators W}.

Lemma or_string_failure_message (reason : option string) :
  or_string reason "Query failed" = failure_message reason.
Proof.
  destruct reason as [r|]; [|reflexivity]. cbn.
  destruct r; cbn; [reflexivity|]. now case_decide.
Qed.

(** One pass through the loop body when the budget is exhausted. *)
Lemma poll_exhausted (n : nat) (id : string) (timeoutMs : option Z) (startTime : Z)
    (st : St W) :
  budget_exhausted timeoutMs startTime (now (world st)) = true →
  poll (S n) id timeoutMs startTime st = (Throw (timed_out id), st).
Proof. intros Hb. cbn. unfold bind, Date_now. now rewrite Hb. Qed.

(** One pass through the loop body when the budget is not exhausted and the
    status request is answered. *)
Lemma poll_answered (n : nat) (id : string) (timeoutMs : option Z) (startTime : Z)
    (st : St W) (response : GetQueryExecutionCommandOutput) (w' : W) :
  budget_exhausted timeoutMs startTime (now (world st)) = false →
  send (GetQueryExecutionCommand id) (world st) = (Return response, w') →
  poll (S n) id timeoutMs startTime st =
    let st' := after_send (GetQueryExecutionCommand id) st w' in
    if bool_decide (observed_state response = Some "SUCCEEDED")
    then (Return response, st')
    else if bool_decide (observed_state response = Some "FAILED")
            || bool_decide (observed_state response = Some "CANCELLED")
    then (Throw (failed_with id (observed_reason response)), st')
    else poll n id timeoutMs startTime
           (mkSt (elapse 1000 (world st')) (trace st' ++ [Slept 1000%Z])).
Proof.
  intros Hb Hs. cbn [poll]. unfold bind at 1. unfold Date_now. rewrite Hb.
  unfold bind at 1. rewrite (client_send_eq _ _ _ _ Hs). cbn zeta.
  unfold QueryExecutionState.SUCCEEDED, QueryExecutionState.FAILED,
    QueryExecutionState.CANCELLED.
  repeat case_bool_decide; reflexivity.
Qed.

(** One pass through the loop body when the status request is rejected. *)
Lemma poll_rejected (n : nat) (id : string) (timeoutMs : option Z) (startTime : Z)
    (st : St W) (e : thrown) (w' : W) :
  budget_exhausted timeoutMs startTime (now (world st)) = false →
  send (GetQueryExecutionCommand id) (world st) = (Throw e, w') →
  poll (S n) id timeoutMs startTime st =
    (Throw e, after_send (GetQueryExecutionCommand id) st w').
Proof.
  intros Hb Hs. cbn [poll]. unfold bind at 1. unfold Date_now. rewrite Hb.
  unfold bind at 1. now rewrite (client_send_eq _ _ _ _ Hs).
Qed.

(** C4. One tick of the poll loop, with the budget not exhausted and the
    status request answered: SUCCEEDED leaves the loop with the response;
    FAILED or CANCELLED throws the [QUERY_FAILED] error, whose message is
    the stated reason when there is one and "Query failed" otherwise; any
    other state (QUEUED, RUNNING, UNKNOWN, none, unrecognized) suspends for
    1000 ms and goes on with the next iteration. *)
Theorem poll_tick (n : nat) (id : string) (timeoutMs : option Z) (startTime : Z)
    (st : St W) (response : GetQueryExecutionCommandOutput) (w' : W) :
  budget_exhausted timeoutMs startTime (now (world st)) = false →
  send (GetQueryExecutionCommand id) (world st) = (Return response, w') →
  let st' := after_send (GetQueryExecutionCommand id) st w' in
  (observed_state response = Some "SUCCEEDED" →
     poll (S n) id timeoutMs startTime st = (Return response, st')) ∧
  (observed_state response = Some "FAILED"
   ∨ observed_state response = Some "CANCELLED" →
     ∃ err, poll (S n) id timeoutMs startTime st = (Throw (ThrownObject err), st')
            ∧ code err = "QUERY_FAILED"
            ∧ message err = failure_message (observed_reason response)
            ∧ handle err = Some id) ∧
  (non_terminal response →
     poll (S n) id timeoutMs startTime st =
     poll n id timeoutMs startTime
       (mkSt (elapse 1000 (world st')) (trace st' ++ [Slept 1000%Z]))).
Proof.
  intros Hb Hs st'. rewrite (poll_answered _ _ _ _ _ _ _ Hb Hs). cbn zeta.
  fold st'. unfold non_terminal. split_and!.
  - intros ->. now rewrite bool_decide_eq_true_2.
  - intros Hf. rewrite bool_decide_eq_false_2 by (destruct Hf; congruence).
    assert (Hor : bool_decide (observed_state response = Some "FAILED")
                  || bool_decide (observed_state response = Some "CANCELLED") = true).
    { destruct Hf as [-> | ->]; reflexivity. }
    rewrite Hor. eexists. split_and!; try reflexivity.
    cbn. apply or_string_failure_message.
  - intros Hn. rewrite !bool_decide_eq_false_2; [reflexivity | | |];
      intros Heq; apply Hn; rewrite Heq; set_solver.
Qed.

(** A run of the loop with [n] attempts left: it ends, having appended to
    the trace only status requests for [id] issued within the budget and
    suspensions of 1000 ms, with at most [n] requests, in one of the
    verdicts of [poll_verdict]. *)
Lemma poll_run (n : nat) (id : string) (timeoutMs : option Z) (startTime : Z)
    (st : St W) :
  ∃ o st' evs,
    poll n id timeoutMs startTime st = (o, st')
    ∧ trace st' = trace st ++ evs
    ∧ Forall (poll_event id timeoutMs startTime) evs
    ∧ (List.length (List.filter is_status_request evs) ≤ n)%nat
    ∧ poll_verdict id timeoutMs startTime n
        (List.length (List.filter is_status_request evs)) (now (world st')) o.
Proof.
  revert st. induction n as [|n IH]; intros st.
  - exists (Throw (timed_out id)), st, []. split_and!; cbn; auto.
    now rewrite app_nil_r.
  - destruct (budget_exhausted timeoutMs startTime (now (world st))) eqn:Hb.
    { exists (Throw (timed_out id)), st, [].
      rewrite (poll_exhausted _ _ _ _ _ Hb). split_and!; cbn; auto with lia.
      now rewrite app_nil_r. }
    destruct (send (GetQueryExecutionCommand id) (world st)) as [[r|e] w'] eqn:Hs.
    2:{ rewrite (poll_rejected _ _ _ _ _ _ _ Hb Hs).
        exists (Throw e), (after_send (GetQueryExecutionCommand id) st w'),
          [Sent (now (world st)) (GetQueryExecutionCommand id)].
        split_and!; cbn; auto with lia.
        - repeat constructor; auto.
        - right; right; eauto. }
    rewrite (poll_answered _ _ _ _ _ _ _ Hb Hs). cbn zeta.
    set (st1 := after_send (GetQueryExecutionCommand id) st w').
    case_bool_decide as Hok.
    { exists (Return r), st1, [Sent (now (world st)) (GetQueryExecutionCommand id)].
      split_and!; cbn; eauto with lia. repeat constructor; auto. }
    destruct (bool_decide (observed_state r = Some "FAILED")
              || bool_decide (observed_state r = Some "CANCELLED")) eqn:Hfail.
    { exists (Throw (failed_with id (observed_reason r))), st1,
        [Sent (now (world st)) (GetQueryExecutionCommand id)].
      split_and!; cbn; auto with lia.
      - repeat constructor; auto.
      - right; left. exists r, (world st), w'. split_and!; auto.
        apply orb_true_iff in Hfail.
        destruct Hfail as [Hf|Hf]; apply bool_decide_eq_true_1 in Hf; auto. }
    destruct (IH (mkSt (elapse 1000 (world st1)) (trace st1 ++ [Slept 1000%Z])))
      as (o & st' & evs & Heq & Htr & Hall & Hlen & Hv).
    exists o, st',
      (Sent (now (world st)) (GetQueryExecutionCommand id) :: Slept 1000%Z :: evs).
    split_and!.
    + exact Heq.
    + rewrite Htr. cbn. now rewrite <- !app_assoc.
    + repeat constructor; cbn; auto.
    + cbn. lia.
    + destruct o as [r'|e']; [exact Hv|]. cbn in Hv |- *.
      destruct Hv as [[-> [Hn|Hx]]|Hv]; [left|left|right]; auto with lia.
Qed.




(** A service that keeps answering with a non-terminal state, along an
    invariant of the world, drives the loop to its [TIMEOUT] error. *)
Lemma poll_never_terminal (Inv : W → Prop) (id : string) (timeoutMs : option Z)
    (startTime : Z) :
  (∀ w, Inv w →
     ∃ r w', send (GetQueryExecutionCommand id) w = (Return r, w')
             ∧ non_terminal r ∧ Inv (elapse 1000 w')) →
  ∀ (n : nat) (st : St W), Inv (world st) →
    ∃ st', poll n id timeoutMs startTime st = (Throw (timed_out id), st').
Proof.
  intros Hstep n. induction n as [|n IH]; intros st Hinv.
  - eexists. reflexivity.
  - destruct (budget_exhausted timeoutMs startTime (now (world st))) eqn:Hb.
    { rewrite (poll_exhausted _ _ _ _ _ Hb). eauto. }
    destruct (Hstep _ Hinv) as (r & w' & Hs & Hnt & Hinv').
    rewrite (poll_answered _ _ _ _ _ _ _ Hb Hs). cbn zeta. unfold non_terminal in Hnt.
    rewrite !bool_decide_eq_false_2
      by (intros Heq; apply Hnt; rewrite Heq; set_solver).
    cbn [orb]. apply IH. exact Hinv'.
Qed.

(** C10. With a budget supplied (a non-zero [timeoutMs]), the budget is
    tested at the top of each iteration, before the status request: once
    [timeoutMs] has elapsed since [startTime] the iteration throws the
    [TIMEOUT] error and leaves the state as it is (nothing is sent), and
    over a whole run of [waitForQueryCompletion] every status request was
    issued at a moment when less than [timeoutMs] had elapsed since the loop
    began. *)
Theorem poll_budget_first (n : nat) (id : string) (maxAttempts : option nat)
    (ms startTime : Z) (st : St W) :
  ms ≠ 0%Z →
  ((ms ≤ now (world st) - startTime)%Z →
     poll (S n) id (Some ms) startTime st = (Throw (timed_out id), st)) ∧
  (∃ o st' evs,
     waitForQueryCompletion id maxAttempts (Some ms) st = (o, st')
     ∧ trace st' = trace st ++ evs
     ∧ ∀ t c, Sent t c ∈ evs →
         c = GetQueryExecutionCommand id ∧ (t - now (world st) < ms)%Z).
Proof.
  intros Hms.
  assert (Hbx : ∀ start t, budget_exhausted (Some ms) start t = true
                           ↔ (ms ≤ t - start)%Z).
  { intros start t. cbn. unfold truthy_number.
    destruct (Z.eqb_spec ms 0) as [?|_]; [contradiction|]. cbn. apply Z.leb_le. }
  split.
  - intros Hle. apply poll_exhausted. now apply Hbx.
  - unfold waitForQueryCompletion, bind, Date_now.
    destruct (poll_run (default 100%nat maxAttempts) id (Some ms) (now (world st)) st)
      as (o & st' & evs & Heq & Htr & Hall & _).
    exists o, st', evs. split_and!; try assumption.
    intros t c Hin. rewrite Forall_forall in Hall.
    destruct (Hall _ Hin) as [-> Hb]. split; [reflexivity|].
    destruct (Z.lt_ge_cases (t - now (world st)) ms) as [Hlt|Hge]; [exact Hlt|].
    apply Hbx in Hge. congruence.
Qed.

End PollLoop.

(** [executeQuery] always supplies a budget: [input.timeoutMs || 60000] is
    never zero. *)
Lemma executeQuery_budget_supplied (input : QueryInput) :
  or_number (timeoutMs input) 60000 ≠ 0%Z.
Proof.
  unfold or_number, truthy_number. destruct (timeoutMs input) as [n|]; [|discriminate].
  destruct (Z.eqb_spec n 0); cbn; [discriminate | assumption].
Qed.

(** Without a time budget and without a maximum, the loop gives up on a
    query that keeps running after 100 status requests. *)
Example waitForQueryCompletion_without_budget :
  fst (waitForQueryCompletion "h-1" None None (Fake.initial Scenario.running))
  = Throw (timed_out "h-1")
  ∧ List.length (List.filter is_status_request
       (trace (snd (waitForQueryCompletion "h-1" None None
                      (Fake.initial Scenario.running))))) = 100%nat.
Proof. split; vm_compute; reflexivity. Qed.

Lemma poll_tick_witness :
  ∃ err,
    poll 3 "h-1" (Some 60000%Z) 0 (Fake.initial Scenario.failing)
    = (Throw (ThrownObject err),
       mkSt (Fake.tick Scenario.failing) [Sent 0 (GetQueryExecutionCommand "h-1")])
    ∧ code err = "QUERY_FAILED" ∧ message err = "syntax error".
Proof.
  assert (Hb : budget_exhausted (Some 60000%Z) 0
                 (now (world (Fake.initial Scenario.failing))) = false)
    by reflexivity.
  assert (Hs : send (GetQueryExecutionCommand "h-1")
                 (world (Fake.initial Scenario.failing))
               = (Return (Fake.in_state "FAILED" (Some "syntax error")),
                  Fake.tick Scenario.failing)) by reflexivity.
  destruct (poll_tick 2 "h-1" (Some 60000%Z) 0 _ _ _ Hb Hs) as (_ & Hfail & _).
  destruct (Hfail (or_introl eq_refl)) as (err & Heq & Hcode & Hmsg & _).
  exists err. split_and!; assumption.
Defined.

Lemma poll_budget_first_witness :
  poll 3 "h-1" (Some 2000%Z) 0 (Fake.initial Scenario.late)
  = (Throw (timed_out "h-1"), Fake.initial Scenario.late).
Proof.
  assert (Hms : 2000%Z ≠ 0%Z) by discriminate.
  destruct (poll_budget_first 2 "h-1" None 2000 0 (Fake.initial Scenario.late) Hms)
    as [Hnow _].
  apply Hnow. cbn. lia.
Defined.


(** ** [executeQuery]: the timeout is an outcome, not an error *)

Section ExecuteQuery.
Context {W : Type} `{Collaborators W}.
Variable outputLocation : string.

Lemma string_code_has_code (e : thrown) (c : string) :
  string_code e = Some c → has_code e = true.
Proof. destruct e; cbn; try discriminate; [intros ->|]; reflexivity. Qed.

(** The state in which [executeQuery] enters the poll loop. *)
Lemma executeQuery_submitted (input : QueryInput) (st : St W)
    (response : StartQueryExecutionCommandOutput) (w1 : W) (id : string) :
  send (StartQueryExecutionCommand (query input) (database input) outputLocation)
    (world st) = (Return response, w1) →
  QueryExecutionId response = Some id →
  id ≠ "" →
  executeQuery outputLocation input st =
    try_catch
      (try_catch
         (let! queryExecution :=
            waitForQueryCompletion id (Some 100%nat)
              (Some (or_number (timeoutMs input) 60000)) in
          let! result := getQueryResults id (maxRows input) in
          ret (FullResult result))
         (on_timeout_return_handle id))
      rethrow_invalid_request
      (after_send (StartQueryExecutionCommand (query input) (database input)
                     outputLocation) st w1).
Proof.
  intros Hs Hid Hne. unfold executeQuery.
  unfold try_catch at 1. unfold bind at 1. rewrite (client_send_eq _ _ _ _ Hs).
  rewrite Hid. destruct id as [|a id']; [contradiction|]. cbn [truthy_string].
  unfold bind at 1. unfold Date_now at 1. reflexivity.
Qed.

(** The inner [catch] of [executeQuery] at work: an error coded [TIMEOUT]
    out of the poll loop becomes the bare handle. *)
Lemma executeQuery_catches_timeout (input : QueryInput) (st st2 : St W)
    (response : StartQueryExecutionCommandOutput) (w1 : W) (id : string)
    (e : thrown) :
  send (StartQueryExecutionCommand (query input) (database input) outputLocation)
    (world st) = (Return response, w1) →
  QueryExecutionId response = Some id →
  id ≠ "" →
  waitForQueryCompletion id (Some 100%nat) (Some (or_number (timeoutMs input) 60000))
    (after_send (StartQueryExecutionCommand (query input) (database input)
                   outputLocation) st w1)
  = (Throw e, st2) →
  string_code e = Some "TIMEOUT" →
  executeQuery outputLocation input st = (Return (HandleOnly id), st2).
Proof.
  intros Hs Hid Hne Hwait Hcode.
  rewrite (executeQuery_submitted _ _ _ _ _ Hs Hid Hne).
  unfold try_catch, bind. rewrite Hwait.
  unfold on_timeout_return_handle.
  rewrite (string_code_has_code _ _ Hcode), Hcode. reflexivity.
Qed.

(** In particular, a query that the service never reports in a terminal
    state makes [executeQuery] return the bare handle. *)
Corollary executeQuery_never_terminal (Inv : W → Prop) (input : QueryInput)
    (st : St W) (response : StartQueryExecutionCommandOutput) (w1 : W) (id : string) :
  send (StartQueryExecutionCommand (query input) (database input) outputLocation)
    (world st) = (Return response, w1) →
  QueryExecutionId response = Some id →
  id ≠ "" →
  Inv w1 →
  (∀ w, Inv w →
     ∃ r w', send (GetQueryExecutionCommand id) w = (Return r, w')
             ∧ non_terminal r ∧ Inv (elapse 1000 w')) →
  ∃ st2, executeQuery outputLocation input st = (Return (HandleOnly id), st2).
Proof.
  intros Hs Hid Hne Hinv Hstep.
  set (st1 := after_send (StartQueryExecutionCommand (query input) (database input)
                            outputLocation) st w1).
  destruct (poll_never_terminal Inv id (Some (or_number (timeoutMs input) 60000))
              (now (world st1)) Hstep 100%nat st1 Hinv) as [st2 Hpoll].
  exists st2. eapply executeQuery_catches_timeout; eauto.
Qed.

End ExecuteQuery.

(** ** Computations only append to the trace *)

Section Extending.
Context {W : Type} `{Collaborators W}.

Lemma extending_ret {A} (a : A) : extending (ret (W:=W) a).
Proof. intros st. exists []. cbn. now rewrite app_nil_r. Qed.

Lemma extending_throw {A} (e : thrown) : extending (throw (W:=W) (A:=A) e).
Proof. intros st. exists []. cbn. now rewrite app_nil_r. Qed.

Lemma extending_Date_now : extending Date_now.
Proof. intros st. exists []. cbn. now rewrite app_nil_r. Qed.

Lemma extending_sleep (ms : Z) : extending (sleep ms).
Proof. intros st. eexists. reflexivity. Qed.

Lemma extending_client_send (c : Command) : extending (client_send c).
Proof. intros st. eexists. apply client_send_trace. Qed.

Lemma extending_bind {A B} (m : M W A) (k : A → M W B) :
  extending m → (∀ a, extending (k a)) → extending (bind m k).
Proof.
  intros Hm Hk st. unfold bind. destruct (Hm st) as [evs Hevs].
  destruct (m st) as [[a|e] st1]; cbn in *.
  - destruct (Hk a st1) as [evs' Hevs']. exists (evs ++ evs').
    now rewrite Hevs', Hevs, app_assoc.
  - eauto.
Qed.

Lemma extending_try_catch {A} (m : M W A) (h : thrown → M W A) :
  extending m → (∀ e, extending (h e)) → extending (try_catch m h).
Proof.
  intros Hm Hh st. unfold try_catch. destruct (Hm st) as [evs Hevs].
  destruct (m st) as [[a|e] st1]; cbn in *.
  - eauto.
  - destruct (Hh e st1) as [evs' Hevs']. exists (evs ++ evs').
    now rewrite Hevs', Hevs, app_assoc.
Qed.

Ltac extending_step :=
  first [ apply extending_ret | apply extending_throw | apply extending_Date_now
        | apply extending_sleep | apply extending_client_send
        | apply extending_bind; [|intros ?]
        | apply extending_try_catch; [|intros ?]
        | case_match ].

Lemma extending_getQueryStatus (id : string) : extending (getQueryStatus id).
Proof. unfold getQueryStatus, rethrow_not_found. repeat extending_step. Qed.

Lemma extending_getQueryResults (id : string) (maxRows : option Z) :
  extending (getQueryResults id maxRows).
Proof.
  unfold getQueryResults, rethrow_not_found.
  repeat first [apply extending_getQueryStatus | extending_step].
Qed.

Lemma extending_poll (n : nat) (id : string) (timeoutMs : option Z) (startTime : Z) :
  extending (poll n id timeoutMs startTime).
Proof.
  induction n as [|n IH]; cbn [poll]; repeat first [exact IH | extending_step].
Qed.

Lemma extending_waitForQueryCompletion (id : string) (maxAttempts : option nat)
    (timeoutMs : option Z) :
  extending (waitForQueryCompletion id maxAttempts timeoutMs).
Proof.
  unfold waitForQueryCompletion. repeat first [apply extending_poll | extending_step].
Qed.

(** [executeQuery] first sends the submission, built from the query and
    database of its input, whatever they are. *)
Lemma executeQuery_submits (outputLocation : string) (input : QueryInput) (st : St W) :
  ∃ evs, trace (snd (executeQuery outputLocation input st))
         = trace st ++
           Sent (now (world st))
             (StartQueryExecutionCommand (query input) (database input) outputLocation)
           :: evs.
Proof.
  assert (Hrest : ∀ (o : outcome StartQueryExecutionCommandOutput),
            extending (try_catch
              (bind (λ st, (o, st)) (λ startResponse,
                 match QueryExecutionId startResponse with
                 | Some id =>
                     if truthy_string id then
                       let timeoutMs := or_number (timeoutMs input) 60000 in
                       let! startTime := Date_now in
                       try_catch
                         (let! queryExecution :=
                            waitForQueryCompletion id (Some 100%nat) (Some timeoutMs) in
                          let! result := getQueryResults id (maxRows input) in
                          ret (FullResult result))
                         (on_timeout_return_handle id)
                     else throw (JsError "Failed to start query execution")
                 | None => throw (JsError "Failed to start query execution")
                 end))
              rethrow_invalid_request)).
  { intros o. unfold on_timeout_return_handle, rethrow_invalid_request.
    apply extending_try_catch; [apply extending_bind|].
    - intros st0. exists []. cbn. now rewrite app_nil_r.
    - intros a.
      repeat first [apply extending_waitForQueryCompletion
                   | apply extending_getQueryResults | extending_step].
    - intros e. repeat extending_step. }
  destruct (send (StartQueryExecutionCommand (query input) (database input)
                    outputLocation) (world st)) as [o w1] eqn:Hs.
  destruct (Hrest o (after_send (StartQueryExecutionCommand (query input)
                       (database input) outputLocation) st w1)) as [evs Hevs].
  exists evs. unfold after_send at 2 in Hevs. cbn [trace] in Hevs.
  rewrite <- app_assoc in Hevs. cbn [app] in Hevs. rewrite <- Hevs.
  unfold executeQuery, try_catch, bind.
  rewrite (client_send_eq _ _ _ _ Hs). reflexivity.
Qed.

End Extending.

(** ** The tool surface *)

Section ToolSurface.
Context {W : Type} `{Collaborators W}.
Variable outputLocation : string.
Variable McpError_message : McpErrorCode → string → string.

(** A [run_query] call with a well-typed database and query runs
    [executeQuery] on the input built from the arguments, renders what it
    returns, and turns what it throws into an error result when that has a
    code and a message. *)
Lemma call_tool_run_query (request : CallToolRequest) (input : QueryInput) :
  name request = "run_query" →
  run_query_input request = Some input →
  call_tool outputLocation McpError_message request
  = try_catch
      (let! result := executeQuery outputLocation input in
       ret (text_result (OfExecuteQuery result)))
      error_result.
Proof.
  intros Hname Hin. unfold call_tool, dispatch, run_query_input in *.
  rewrite (bool_decide_eq_true_2 _ Hname).
  destruct (arguments request) as [args|]; [|discriminate].
  destruct (prop args "database") eqn:Hd; try discriminate.
  destruct (prop args "query") eqn:Hq; try discriminate.
  injection Hin as <-. reflexivity.
Qed.

(** C8 (amended). A [run_query] call whose arguments are absent, or whose
    database or query is absent or not a string, is answered with an error
    result and leaves the state untouched: nothing is sent.  A call whose
    database and query are strings, empty or not, sends the submission built
    from them. *)
Theorem run_query_requires_strings (request : CallToolRequest) (st : St W) :
  name request = "run_query" →
  (run_query_input request = None →
     ∃ r, call_tool outputLocation McpError_message request st = (Return r, st)
          ∧ isError r = true) ∧
  (∀ input, run_query_input request = Some input →
     ∃ evs, trace (snd (call_tool outputLocation McpError_message request st))
            = trace st ++
              Sent (now (world st))
                (StartQueryExecutionCommand (query input) (database input)
                   outputLocation)
              :: evs).
Proof.
  intros Hname. split.
  - unfold call_tool, dispatch, run_query_input.
    rewrite (bool_decide_eq_true_2 _ Hname).
    intros Hnone. unfold try_catch.
    destruct (arguments request) as [args|]; [|cbn; eauto].
    destruct (prop args "database") eqn:Hd; cbn; eauto;
      destruct (prop args "query") eqn:Hq; cbn; eauto; discriminate.
  - intros input Hsome. rewrite (call_tool_run_query _ _ Hname Hsome).
    destruct (executeQuery_submits outputLocation input st) as [evs Hevs].
    unfold try_catch, bind.
    destruct (executeQuery outputLocation input st) as [[r|e] st1]; cbn in Hevs |- *.
    + eauto.
    + unfold error_result. destruct (has_code e && has_message e); cbn; eauto.
Qed.

(** C1. When the submission has returned the handle [id] and the poll loop
    ends in an error whose code is [TIMEOUT] (its budget is exhausted before
    a terminal state is seen), [executeQuery] throws nothing: it returns
    exactly the object [{ queryExecutionId: id }], in the state the loop
    ended in (no further request is made); and the [run_query] tool answers
    with that object as a result that is not an error. *)
Theorem executeQuery_timeout (input : QueryInput) (st st2 : St W)
    (response : StartQueryExecutionCommandOutput) (w1 : W) (id : string)
    (e : thrown) :
  send (StartQueryExecutionCommand (query input) (database input) outputLocation)
    (world st) = (Return response, w1) →
  QueryExecutionId response = Some id →
  id ≠ "" →
  waitForQueryCompletion id (Some 100%nat) (Some (or_number (timeoutMs input) 60000))
    (after_send (StartQueryExecutionCommand (query input) (database input)
                   outputLocation) st w1)
  = (Throw e, st2) →
  string_code e = Some "TIMEOUT" →
  executeQuery outputLocation input st = (Return (HandleOnly id), st2)
  ∧ ∀ request,
      name request = "run_query" →
      run_query_input request = Some input →
      call_tool outputLocation McpError_message request st
      = (Return {| content := JSON_stringify (OfExecuteQuery (HandleOnly id));
                   isError := false |}, st2).
Proof.
  intros Hs Hid Hne Hwait Hcode.
  pose proof (executeQuery_catches_timeout outputLocation _ _ _ _ _ _ _
                Hs Hid Hne Hwait Hcode) as Hexec.
  split; [exact Hexec|].
  intros request Hname Hin. rewrite (call_tool_run_query _ _ Hname Hin).
  unfold try_catch, bind. rewrite Hexec. reflexivity.
Qed.

End ToolSurface.

Lemma run_query_requires_strings_witness :
  ∃ r, call_tool "s3://results/" Fake.mcp_message Scenario.numeric_database
         (Fake.initial Scenario.succeeded)
       = (Return r, Fake.initial Scenario.succeeded)
       ∧ isError r = true.
Proof.
  destruct (run_query_requires_strings "s3://results/" Fake.mcp_message
              Scenario.numeric_database (Fake.initial Scenario.succeeded) eq_refl)
    as [Hreject _].
  apply Hreject. reflexivity.
Defined.

(** C8, as stated, fails: a [run_query] call whose database and query are
    the empty string is not rejected; the submission is sent with them and
    the call returns a result that is not an error. *)
Lemma run_query_empty_strings_submitted :
  List.filter is_submission
    (trace (snd (call_tool "s3://results/" Fake.mcp_message Scenario.empty_strings
                   (Fake.initial Scenario.succeeded))))
  = [Sent 0 (StartQueryExecutionCommand "" "" "s3://results/")]
  ∧ ∃ r, fst (call_tool "s3://results/" Fake.mcp_message Scenario.empty_strings
                (Fake.initial Scenario.succeeded)) = Return r
         ∧ isError r = false.
Proof. split; [vm_compute; reflexivity|]. eexists. split; vm_compute; reflexivity. Qed.

(** C2. What the code does when 10001 rows are asked for.  Neither call is
    rejected: [run_query] submits the query, polls, and asks the service for
    10001 results; [get_result] queries the status and asks for 10001
    results. *)
Lemma maxRows_10001_reaches_the_service :
  trace (snd (call_tool "s3://results/" Fake.mcp_message Scenario.run_query_10001
                (Fake.initial Scenario.succeeded)))
  = [Sent 0 (StartQueryExecutionCommand "SELECT 1" "sales" "s3://results/");
     Sent 5 (GetQueryExecutionCommand "h-1");
     Sent 10 (GetQueryExecutionCommand "h-1");
     Sent 15 (GetQueryResultsCommand "h-1" 10001)]
  ∧ trace (snd (call_tool "s3://results/" Fake.mcp_message Scenario.get_result_10001
                  (Fake.initial Scenario.succeeded)))
    = [Sent 0 (GetQueryExecutionCommand "h-1");
       Sent 5 (GetQueryResultsCommand "h-1" 10001)].
Proof. split; vm_compute; reflexivity. Qed.

(** ** The result decoder *)

Section Decoder.



Lemma truthy_string_true (s : string) : truthy_string s = true ↔ s ≠ "".
Proof. destruct s; cbn; split; congruence. Qed.

(** The cells from [index] on leave a key alone when none of them stands
    under a column of that name. *)
Lemma forEach_cell_other (columns : list string) (cells : list Datum) (index : nat)
    (obj : RowObject) (name : string) :
  (∀ j cell, cells !! j = Some cell → columns !! (index + j)%nat ≠ Some name) →
  forEach_cell columns index cells obj !! name = obj !! name.
Proof.
  revert index obj. induction cells as [|data cells IH]; intros index obj Hno; cbn.
  - reflexivity.
  - rewrite IH.
    + unfold assign_cell. pose proof (Hno 0%nat data eq_refl) as H0.
      rewrite Nat.add_0_r in H0.
      destruct (columns !! index) as [c|]; [|reflexivity].
      destruct (truthy_string c); [|reflexivity].
      unfold set_property. case_decide; [reflexivity|].
      apply lookup_insert_ne. congruence.
    + intros j cell Hj. specialize (Hno (S j) cell Hj).
      now rewrite Nat.add_succ_r in Hno.
Qed.


(** Nor under the name ["__proto__"]. *)
Lemma forEach_cell_proto (columns : list string) (cells : list Datum) (index : nat)
    (obj : RowObject) :
  forEach_cell columns index cells obj !! "__proto__" = obj !! "__proto__".
Proof.
  revert index obj. induction cells as [|data cells IH]; intros index obj; cbn.
  - reflexivity.
  - rewrite IH. unfold assign_cell.
    destruct (columns !! index) as [c|]; [|reflexivity].
    destruct (truthy_string c); [|reflexivity].
    unfold set_property. case_decide as Hc; [reflexivity|].
    apply lookup_insert_ne. exact Hc.
Qed.

(** The last cell under a column of a given name, not empty and not
    ["__proto__"], is the value of that name. *)
Lemma forEach_cell_last (columns : list string) (cells : list Datum) (index : nat)
    (obj : RowObject) (i : nat) (name : string) (cell : Datum) :
  cells !! i = Some cell →
  columns !! (index + i)%nat = Some name →
  name ≠ "" →
  name ≠ "__proto__" →
  (∀ j cell', (i < j)%nat → cells !! j = Some cell' →
     columns !! (index + j)%nat ≠ Some name) →
  forEach_cell columns index cells obj !! name = Some (VarCharValue cell).
Proof.
  revert index obj i. induction cells as [|data cells IH];
    intros index obj i Hcell Hcol Hne Hnp Hlast; [discriminate|].
  destruct i as [|i]; cbn in Hcell |- *.
  - injection Hcell as ->. rewrite Nat.add_0_r in Hcol.
    rewrite forEach_cell_other.
    + unfold assign_cell. rewrite Hcol.
      apply truthy_string_true in Hne. rewrite Hne.
      unfold set_property. rewrite decide_False by exact Hnp. apply lookup_insert_eq.
    + intros j cell' Hj. rewrite Nat.add_succ_l, <- Nat.add_succ_r.
      apply (Hlast (S j) cell'); [lia | exact Hj].
  - apply (IH (S index) _ i); auto.
    + now rewrite Nat.add_succ_l, <- Nat.add_succ_r.
    + intros j cell' Hij Hj. rewrite Nat.add_succ_l, <- Nat.add_succ_r.
      apply (Hlast (S j) cell'); [lia | exact Hj].
Qed.


End Decoder.

(** ** A successful fetch *)

Section SuccessfulFetch.
Context {W : Type} `{Collaborators W}.

(** What [getQueryResults] returns when the status is SUCCEEDED and the
    service answers the result request with a result set. *)
Lemma getQueryResults_success (id : string) (maxRows : option Z) (st st1 : St W)
    (status : QueryStatus) (results : GetQueryResultsCommandOutput) (w2 : W)
    (rs : ResultSetT) :
  getQueryStatus id st = (Return status, st1) →
  state status = "SUCCEEDED" →
  send (GetQueryResultsCommand id (or_number maxRows 1000)) (world st1)
    = (Return results, w2) →
  ResultSet results = Some rs →
  getQueryResults id maxRows st =
    (Return {| columns := column_names rs;
               rows := decode_rows (column_names rs) rs;
               queryExecutionId := id;
               bytesScanned := or_number (dataScannedInBytes <$> statistics status) 0;
               executionTime :=
                 or_number (engineExecutionTimeInMillis <$> statistics status) 0 |},
     after_send (GetQueryResultsCommand id (or_number maxRows 1000)) st1 w2).
Proof.
  intros Hq Hstate Hs Hrs. unfold getQueryResults, try_catch, bind. rewrite Hq.
  unfold QueryExecutionState.RUNNING, QueryExecutionState.QUEUED,
    QueryExecutionState.FAILED, QueryExecutionState.SUCCEEDED.
  rewrite Hstate. cbn [bool_decide orb].
  rewrite !bool_decide_eq_false_2 by (try discriminate; intros Hn; now apply Hn).
  cbn [orb]. rewrite (client_send_eq _ _ _ _ Hs), Hrs. reflexivity.
Qed.


(** C7. After a successful fetch the first row of the result set, and only
    that row, is left out: there is one record per remaining row, in order.
    For the header row [["col_a", "col_b"]] followed by [["1", "x"]] and
    [["2", null]] the records are [{col_a: "1", col_b: "x"}] and
    [{col_a: "2", col_b: undefined}]: the null cell is kept as an undefined
    value, not as the empty string. *)
Theorem getQueryResults_drops_header (id : string) (maxRows : option Z)
    (st st1 : St W) (status : QueryStatus) (results : GetQueryResultsCommandOutput)
    (w2 : W) (rs : ResultSetT) :
  getQueryStatus id st = (Return status, st1) →
  state status = "SUCCEEDED" →
  send (GetQueryResultsCommand id (or_number maxRows 1000)) (world st1)
    = (Return results, w2) →
  ResultSet results = Some rs →
  ∃ result st2,
    getQueryResults id maxRows st = (Return result, st2)
    ∧ (∀ header data, Rows rs = Some (header :: data) →
         rows result = map (row_object (columns result)) data)
    ∧ (Rows rs = None ∨ Rows rs = Some [] → rows result = [])
    ∧ (rs = Scenario.table →
         columns result = ["col_a"; "col_b"]
         ∧ rows result
           = [ <["col_a" := Some "1"]> (<["col_b" := Some "x"]> ∅);
               <["col_a" := Some "2"]> (<["col_b" := None]> ∅) ]).
Proof.
  intros Hq Hstate Hs Hrs.
  rewrite (getQueryResults_success _ _ _ _ _ _ _ _ Hq Hstate Hs Hrs).
  do 2 eexists. split; [reflexivity|]. cbn [columns rows]. unfold decode_rows.
  split_and!.
  - intros header data ->. reflexivity.
  - intros [-> | ->]; reflexivity.
  - intros ->. split; [reflexivity|]. vm_compute. reflexivity.
Qed.

End SuccessfulFetch.

Lemma succeeded_status (w : Fake.scripted) :
  Fake.on_status w = [Return (Fake.in_state "SUCCEEDED" None)] →
  getQueryStatus "h-1" (Fake.initial w)
  = (Return {| state := "SUCCEEDED";
               stateChangeReason := None;
               statistics := Some {| dataScannedInBytes := 2048;
                                     engineExecutionTimeInMillis := 37 |} |},
     mkSt (Fake.tick w) [Sent (Fake.clock w) (GetQueryExecutionCommand "h-1")]).
Proof.
  intros Hw. unfold getQueryStatus, try_catch, bind, client_send. cbn.
  unfold Fake.next_status. rewrite Hw. reflexivity.
Qed.



(** A column named [__proto__] stays in the columns, but its cells are in
    no record: the assignment does not create a property. *)
Example proto_column_not_stored :
  column_names Scenario.proto_column = ["__proto__"; "b"]
  ∧ decode_rows (column_names Scenario.proto_column) Scenario.proto_column
    = [ <["b" := Some "2"]> ∅ ].
Proof. split; vm_compute; reflexivity. Qed.

Lemma getQueryResults_drops_header_witness :
  ∃ result st2,
    getQueryResults "h-1" None (Fake.initial Scenario.succeeded) = (Return result, st2)
    ∧ rows result
      = [ <["col_a" := Some "1"]> (<["col_b" := Some "x"]> ∅);
          <["col_a" := Some "2"]> (<["col_b" := None]> ∅) ].
Proof.
  destruct (getQueryResults_drops_header "h-1" None (Fake.initial Scenario.succeeded)
              _ _ {| ResultSet := Some Scenario.table |}
              (Fake.tick (Fake.tick Scenario.succeeded)) Scenario.table
              (succeeded_status Scenario.succeeded eq_refl) eq_refl eq_refl eq_refl)
    as (result & st2 & Heq & _ & _ & Hex).
  exists result, st2. split; [exact Heq | exact (proj2 (Hex eq_refl))].
Defined.

Lemma executeQuery_timeout_witness :
  ∃ st2,
    executeQuery "s3://results/" Scenario.impatient (Fake.initial Scenario.running)
    = (Return (HandleOnly "h-1"), st2)
    ∧ call_tool "s3://results/" Fake.mcp_message Scenario.impatient_request
        (Fake.initial Scenario.running)
      = (Return {| content := JSON_stringify (OfExecuteQuery (HandleOnly "h-1"));
                   isError := false |}, st2)
    ∧ List.length (List.filter is_status_request (trace st2)) = 3%nat.
Proof.
  set (st1 := after_send (StartQueryExecutionCommand "SELECT 1" "sales" "s3://results/")
                (Fake.initial Scenario.running) (Fake.tick Scenario.running)).
  set (run := waitForQueryCompletion "h-1" (Some 100%nat) (Some 3000%Z) st1).
  assert (Hwait : run = (Throw (timed_out "h-1"), snd run)) by (vm_compute; reflexivity).
  assert (Hs : send (StartQueryExecutionCommand (query Scenario.impatient)
                       (database Scenario.impatient) "s3://results/")
                 (world (Fake.initial Scenario.running))
               = (Return {| QueryExecutionId := Some "h-1" |},
                  Fake.tick Scenario.running)) by reflexivity.
  assert (Hne : "h-1" ≠ "") by discriminate.
  destruct (executeQuery_timeout "s3://results/" Fake.mcp_message Scenario.impatient
              (Fake.initial Scenario.running) (snd run) _ _ "h-1" (timed_out "h-1")
              Hs eq_refl Hne Hwait eq_refl) as [Hexec Htool].
  exists (snd run). split_and!.
  - exact Hexec.
  - apply Htool; reflexivity.
  - vm_compute. reflexivity.
Defined.

(** * Further properties of the service *)

(** ** The requests of the status query and of the result fetch *)

Section Requests.
Context {W : Type} `{Collaborators W}.

Lemma or_string_truthy (x : option string) (d : string) :
  d ≠ "" → or_string x d ≠ "".
Proof.
  intros Hd. unfold or_string. destruct x as [s|]; [|exact Hd].
  destruct s; cbn; [exact Hd | discriminate].
Qed.

Lemma or_number_truthy (x : option Z) (d : Z) : d ≠ 0%Z → or_number x d ≠ 0%Z.
Proof.
  intros Hd. unfold or_number, truthy_number. destruct x as [n|]; [|exact Hd].
  destruct (Z.eqb_spec n 0); cbn; assumption.
Qed.

Lemma or_number_idem (x : option Z) :
  (if truthy_number (or_number x 0) then or_number x 0 else 0%Z) = or_number x 0.
Proof.
  unfold truthy_number. destruct (Z.eqb_spec (or_number x 0) 0) as [->|]; reflexivity.
Qed.

(** X1. [getQueryStatus] is a single round trip: it sends the status request
    for the handle and nothing else, whatever the answer.  The state it
    returns is never the empty string (a response without a state reads
    UNKNOWN), the statistics are always there, and what it throws is never
    the SDK's [InvalidRequestException] itself. *)
Theorem getQueryStatus_single_request (id : string) (st : St W) :
  ∃ o st',
    getQueryStatus id st = (o, st')
    ∧ trace st' = trace st ++ [Sent (now (world st)) (GetQueryExecutionCommand id)]
    ∧ match o with
      | Return status => state status ≠ "" ∧ is_Some (statistics status)
      | Throw e => is_InvalidRequestException e = false
      end.
Proof.
  unfold getQueryStatus, try_catch, bind, client_send.
  destruct (send (GetQueryExecutionCommand id) (world st)) as [[r|e] w'] eqn:Hs; cbn.
  - destruct (QueryExecution r) as [qe|]; cbn; do 2 eexists;
      (split_and!; [reflexivity | reflexivity |]); cbn; [|reflexivity].
    split; [now apply or_string_truthy | eauto].
  - unfold rethrow_not_found. destruct (is_InvalidRequestException e) eqn:He; cbn;
      do 2 eexists; (split_and!; [reflexivity | reflexivity |]); cbn; auto.
Qed.

(** The shape of a run of [getQueryResults], for the proofs below. *)
Lemma getQueryResults_run (id : string) (maxRows : option Z) (st : St W) :
  ∃ o st' evs,
    getQueryResults id maxRows st = (o, st')
    ∧ trace st' = trace st ++ Sent (now (world st)) (GetQueryExecutionCommand id) :: evs
    ∧ (evs = [] ∨ ∃ t, evs = [Sent t (GetQueryResultsCommand id (or_number maxRows 1000))])
    ∧ match o with
      | Return result => queryExecutionId result = id ∧ evs ≠ []
      | Throw e => is_InvalidRequestException e = false
      end.
Proof.
  destruct (getQueryStatus id st) as [[status|e] st1] eqn:Hq.
  2:{ exists (Throw e), st1, []. rewrite (getQueryResults_status_throws _ _ _ _ _ Hq).
      split_and!; auto.
      - apply (getQueryStatus_trace _ _ _ _ Hq).
      - apply (getQueryStatus_throws _ _ _ _ Hq). }
  pose proof (getQueryStatus_trace _ _ _ _ Hq) as Htr.
  unfold getQueryResults, try_catch, bind. rewrite Hq.
  destruct (bool_decide (state status = QueryExecutionState.RUNNING)
            || bool_decide (state status = QueryExecutionState.QUEUED)).
  { exists (Throw (still_running id)), st1, []. split_and!; auto. }
  destruct (bool_decide (state status = QueryExecutionState.FAILED)).
  { exists (Throw (failed_with id (stateChangeReason status))), st1, [].
    split_and!; auto. }
  destruct (bool_decide (state status ≠ QueryExecutionState.SUCCEEDED)).
  { exists (Throw (unexpected_state id (state status))), st1, []. split_and!; auto. }
  unfold client_send.
  destruct (send (GetQueryResultsCommand id (or_number maxRows 1000)) (world st1))
    as [[r|e] w2]; cbn.
  - destruct (ResultSet r); cbn; do 3 eexists;
      (split_and!; [reflexivity | rewrite Htr, <- app_assoc; reflexivity | eauto |]);
      cbn; auto.
  - unfold rethrow_not_found. destruct (is_InvalidRequestException e) eqn:He; cbn;
      do 3 eexists;
      (split_and!; [reflexivity | rewrite Htr, <- app_assoc; reflexivity | eauto |]);
      cbn; auto.
Qed.

(** X2. [getQueryResults] sends the status request for the handle first and
    after it at most one result request, for the same handle and for
    [maxRows || 1000] rows, which is never 0 rows.  A result it returns
    carries the handle it was asked for and has taken the result request;
    what it throws is never the SDK's [InvalidRequestException] itself. *)
Theorem getQueryResults_requests (id : string) (maxRows : option Z) (st : St W) :
  ∃ o st' evs,
    getQueryResults id maxRows st = (o, st')
    ∧ trace st' = trace st ++ Sent (now (world st)) (GetQueryExecutionCommand id) :: evs
    ∧ (evs = [] ∨ ∃ t, evs = [Sent t (GetQueryResultsCommand id (or_number maxRows 1000))])
    ∧ or_number maxRows 1000 ≠ 0%Z
    ∧ match o with
      | Return result => queryExecutionId result = id ∧ evs ≠ []
      | Throw e => is_InvalidRequestException e = false
      end.
Proof.
  destruct (getQueryResults_run id maxRows st) as (o & st' & evs & Heq & Htr & Hevs & Ho).
  exists o, st', evs. split_and!; auto. now apply or_number_truthy.
Qed.

(** X3. A result comes out of [getQueryResults] only when the state that the
    service has just reported is SUCCEEDED, and its [bytesScanned] and
    [executionTime] are the statistics of that status response (0 where the
    response has none), not anything the result request answered. *)
Theorem getQueryResults_statistics (id : string) (maxRows : option Z) (st st' : St W)
    (response : GetQueryExecutionCommandOutput) (w1 : W) (result : QueryResult) :
  send (GetQueryExecutionCommand id) (world st) = (Return response, w1) →
  getQueryResults id maxRows st = (Return result, st') →
  ∃ qe,
    QueryExecution response = Some qe
    ∧ (Status qe ≫= State) = Some "SUCCEEDED"
    ∧ bytesScanned result = or_number (Statistics qe ≫= DataScannedInBytes) 0
    ∧ executionTime result = or_number (Statistics qe ≫= EngineExecutionTimeInMillis) 0.
Proof.
  intros Hs. unfold getQueryResults, getQueryStatus, try_catch, bind.
  rewrite (client_send_eq _ _ _ _ Hs).
  destruct (QueryExecution response) as [qe|]; cbn; [|discriminate].
  unfold QueryExecutionState.RUNNING, QueryExecutionState.QUEUED,
    QueryExecutionState.FAILED, QueryExecutionState.SUCCEEDED.
  repeat case_bool_decide; cbn; try discriminate.
  unfold client_send. cbn [world after_send].
  destruct (send (GetQueryResultsCommand id (or_number maxRows 1000)) w1)
    as [[r|e] w2]; cbn.
  - destruct (ResultSet r); cbn; [|discriminate]. intros [= <- <-]. cbn.
    exists qe. split_and!; try reflexivity; try apply or_number_idem.
    match goal with Hn : or_string _ _ = "SUCCEEDED" |- _ => rename Hn into Hok end.
    unfold or_string in Hok. destruct (Status qe ≫= State) as [s|]; [|discriminate].
    destruct (truthy_string s); congruence.
  - unfold rethrow_not_found. destruct (is_InvalidRequestException e); discriminate.
Qed.

End Requests.

Lemma getQueryResults_statistics_witness :
  ∃ result st',
    getQueryResults "h-1" None (Fake.initial Scenario.succeeded) = (Return result, st')
    ∧ bytesScanned result = 2048%Z ∧ executionTime result = 37%Z.
Proof.
  destruct (getQueryResults "h-1" None (Fake.initial Scenario.succeeded))
    as [[result|e] st'] eqn:Hrun; [|vm_compute in Hrun; discriminate].
  assert (Hs : send (GetQueryExecutionCommand "h-1")
                 (world (Fake.initial Scenario.succeeded))
               = (Return (Fake.in_state "SUCCEEDED" None), Fake.tick Scenario.succeeded))
    by reflexivity.
  destruct (getQueryResults_statistics "h-1" None _ _ _ _ _ Hs Hrun)
    as (qe & Hqe & _ & Hbytes & Htime).
  injection Hqe as <-. exists result, st'. split_and!; [reflexivity | exact Hbytes | exact Htime].
Defined.

(** ** The orchestrator: [executeQuery] from submission to outcome *)

Section Orchestrator.
Context {W : Type} `{Collaborators W}.
Variable outputLocation : string.

Lemma rethrow_invalid_request_eq {A} (e : thrown) (st : St W) :
  rethrow_invalid_request (A:=A) e st = (Throw (as_invalid_request e), st).
Proof. destruct e; reflexivity. Qed.

Lemma catch_settle (m : M W ExecuteQueryResult) (id : string) (st st2 : St W)
    (e : thrown) :
  m st = (Throw e, st2) →
  try_catch (try_catch m (on_timeout_return_handle id)) rethrow_invalid_request st
  = (settle id e, st2).
Proof.
  intros Hm. unfold try_catch. rewrite Hm. unfold on_timeout_return_handle, settle.
  destruct (has_code e && bool_decide (string_code e = Some "TIMEOUT")); cbn;
    [reflexivity | apply rethrow_invalid_request_eq].
Qed.

Lemma submitted_handle_Some (o : outcome StartQueryExecutionCommandOutput) (id : string) :
  submitted_handle o = Some id →
  ∃ response, o = Return response ∧ QueryExecutionId response = Some id ∧ id ≠ "".
Proof.
  destruct o as [response|e]; cbn; [|discriminate].
  destruct (QueryExecutionId response) as [i|] eqn:Hq; [|discriminate].
  destruct (truthy_string i) eqn:Hi; [|discriminate]. intros [= ->].
  exists response. split_and!; [reflexivity | exact Hq |].
  now apply truthy_string_true.
Qed.

(** After a submission that produced the handle [id], [executeQuery] is the
    poll loop followed by the result fetch, with every error of either
    passed through the two [catch] clauses. *)
Lemma executeQuery_after_submission (input : QueryInput) (st : St W)
    (o : outcome StartQueryExecutionCommandOutput) (w1 : W) (id : string) :
  send (StartQueryExecutionCommand (query input) (database input) outputLocation)
    (world st) = (o, w1) →
  submitted_handle o = Some id →
  executeQuery outputLocation input st =
    match waitForQueryCompletion id (Some 100%nat)
            (Some (or_number (timeoutMs input) 60000))
            (after_send (StartQueryExecutionCommand (query input) (database input)
                           outputLocation) st w1) with
    | (Throw e, st2) => (settle id e, st2)
    | (Return _, st2) =>
        match getQueryResults id (maxRows input) st2 with
        | (Return result, st3) => (Return (FullResult result), st3)
        | (Throw e, st3) => (settle id e, st3)
        end
    end.
Proof.
  intros Hs Hid. destruct (submitted_handle_Some _ _ Hid) as (response & -> & Hr & Hne).
  rewrite (executeQuery_submitted _ _ _ _ _ _ Hs Hr Hne).
  set (st1 := after_send _ st w1).
  destruct (waitForQueryCompletion id (Some 100%nat)
              (Some (or_number (timeoutMs input) 60000)) st1) as [[qe|e] st2] eqn:Hw.
  - destruct (getQueryResults id (maxRows input) st2) as [[result|e] st3] eqn:Hg.
    + unfold try_catch, bind. rewrite Hw, Hg. reflexivity.
    + apply catch_settle. unfold bind. rewrite Hw, Hg. reflexivity.
  - apply catch_settle. unfold bind. now rewrite Hw.
Qed.

(** Without a handle [executeQuery] throws, in the state the submission
    has left. *)
Lemma executeQuery_stops (input : QueryInput) (st : St W)
    (o : outcome StartQueryExecutionCommandOutput) (w1 : W) :
  send (StartQueryExecutionCommand (query input) (database input) outputLocation)
    (world st) = (o, w1) →
  submitted_handle o = None →
  ∃ e, executeQuery outputLocation input st
       = (Throw e, after_send (StartQueryExecutionCommand (query input)
                                 (database input) outputLocation) st w1)
       ∧ is_InvalidRequestException e = false.
Proof.
  intros Hs Hnone. unfold executeQuery, try_catch, bind.
  rewrite (client_send_eq _ _ _ _ Hs). destruct o as [response|e]; cbn in *.
  - destruct (QueryExecutionId response) as [id|]; [|eauto].
    destruct (truthy_string id); [discriminate | eauto].
  - destruct e; cbn; eauto.
Qed.

(** X4. When the submission does not produce a handle, [executeQuery] stops
    there: a rejection by [InvalidRequestException] is thrown as the
    [INVALID_REQUEST] error with the service's message, any other rejection
    as it is, and a response without a (non-empty) [QueryExecutionId] as a
    plain [Error]; the submission is the only request that was sent. *)
Theorem executeQuery_no_handle (input : QueryInput) (st : St W)
    (o : outcome StartQueryExecutionCommandOutput) (w1 : W) :
  send (StartQueryExecutionCommand (query input) (database input) outputLocation)
    (world st) = (o, w1) →
  submitted_handle o = None →
  executeQuery outputLocation input st =
    (Throw match o with
           | Throw (InvalidRequestException msg) =>
               ThrownObject {| message := msg; code := "INVALID_REQUEST"; handle := None |}
           | Throw e => e
           | Return _ => JsError "Failed to start query execution"
           end,
     mkSt w1 (trace st ++
              [Sent (now (world st))
                 (StartQueryExecutionCommand (query input) (database input)
                    outputLocation)])).
Proof.
  intros Hs Hnone. unfold executeQuery, try_catch, bind.
  rewrite (client_send_eq _ _ _ _ Hs). destruct o as [response|e]; cbn in *.
  - destruct (QueryExecutionId response) as [id|]; [|reflexivity].
    destruct (truthy_string id); [discriminate | reflexivity].
  - destruct e; reflexivity.
Qed.

(** X5. An error out of the poll loop that is not coded [TIMEOUT] ends
    [executeQuery] without a result request: an [InvalidRequestException]
    of a status request becomes the [INVALID_REQUEST] error (not
    [QUERY_NOT_FOUND]: the loop does not go through [getQueryStatus]), and
    every other error, [QUERY_FAILED] among them, is thrown unchanged. *)
Theorem executeQuery_loop_error (input : QueryInput) (st st2 : St W)
    (o : outcome StartQueryExecutionCommandOutput) (w1 : W) (id : string)
    (e : thrown) :
  send (StartQueryExecutionCommand (query input) (database input) outputLocation)
    (world st) = (o, w1) →
  submitted_handle o = Some id →
  waitForQueryCompletion id (Some 100%nat) (Some (or_number (timeoutMs input) 60000))
    (after_send (StartQueryExecutionCommand (query input) (database input)
                   outputLocation) st w1)
  = (Throw e, st2) →
  string_code e ≠ Some "TIMEOUT" →
  executeQuery outputLocation input st =
    (Throw match e with
           | InvalidRequestException msg =>
               ThrownObject {| message := msg; code := "INVALID_REQUEST"; handle := None |}
           | _ => e
           end, st2).
Proof.
  intros Hs Hid Hw Hcode. rewrite (executeQuery_after_submission _ _ _ _ _ Hs Hid), Hw.
  unfold settle. rewrite (bool_decide_eq_false_2 _ Hcode), andb_false_r.
  destruct e; reflexivity.
Qed.

End Orchestrator.

Lemma executeQuery_no_handle_witness :
  executeQuery "s3://results/" Scenario.plain (Fake.initial Scenario.rejecting)
  = (Throw (ThrownObject {| message := "line 1:8: mismatched input";
                            code := "INVALID_REQUEST";
                            handle := None |}),
     mkSt (Fake.tick Scenario.rejecting)
       [Sent 0 (StartQueryExecutionCommand "SELECT 1" "sales" "s3://results/")]).
Proof.
  assert (Hs : send (StartQueryExecutionCommand (query Scenario.plain)
                       (database Scenario.plain) "s3://results/")
                 (world (Fake.initial Scenario.rejecting))
               = (Throw (InvalidRequestException "line 1:8: mismatched input"),
                  Fake.tick Scenario.rejecting)) by reflexivity.
  exact (executeQuery_no_handle "s3://results/" Scenario.plain
           (Fake.initial Scenario.rejecting) _ _ Hs eq_refl).
Defined.

Lemma executeQuery_loop_error_witness :
  ∃ st2,
    executeQuery "s3://results/" Scenario.plain (Fake.initial Scenario.forgetting)
    = (Throw (ThrownObject {| message := "QueryExecution h-1 was not found";
                              code := "INVALID_REQUEST";
                              handle := None |}), st2).
Proof.
  set (st1 := after_send (StartQueryExecutionCommand "SELECT 1" "sales" "s3://results/")
                (Fake.initial Scenario.forgetting) (Fake.tick Scenario.forgetting)).
  set (run := waitForQueryCompletion "h-1" (Some 100%nat) (Some 60000%Z) st1).
  assert (Hw : run = (Throw (InvalidRequestException "QueryExecution h-1 was not found"),
                      snd run)) by (vm_compute; reflexivity).
  assert (Hs : send (StartQueryExecutionCommand (query Scenario.plain)
                       (database Scenario.plain) "s3://results/")
                 (world (Fake.initial Scenario.forgetting))
               = (Fake.started "h-1", Fake.tick Scenario.forgetting)) by reflexivity.
  assert (Hcode : string_code (InvalidRequestException "QueryExecution h-1 was not found")
                  ≠ Some "TIMEOUT") by discriminate.
  exists (snd run).
  exact (executeQuery_loop_error "s3://results/" Scenario.plain
           (Fake.initial Scenario.forgetting) (snd run) _ _ "h-1" _ Hs eq_refl Hw Hcode).
Defined.

(** ** The requests of one [executeQuery] call *)

Section OrchestratorTrace.
Context {W : Type} `{Collaborators W}.
Variable outputLocation : string.

(** The events of the poll loop are status requests and suspensions only. *)
Lemma poll_events_counts (id : string) (timeoutMs : option Z) (startTime : Z)
    (evs : list event) :
  Forall (poll_event id timeoutMs startTime) evs →
  Forall (for_handle id) evs
  ∧ List.filter is_submission evs = []
  ∧ List.filter is_results_request evs = []
  ∧ List.filter is_sent evs = List.filter is_status_request evs.
Proof.
  induction 1 as [|ev evs Hev _ (IH1 & IH2 & IH3 & IH4)]; [repeat split; constructor|].
  destruct ev as [t c|ms]; cbn in Hev.
  - destruct Hev as [-> _]. cbn. rewrite IH2, IH3, IH4.
    split_and!; auto. constructor; [reflexivity | exact IH1].
  - cbn. split_and!; auto. constructor; [exact I | exact IH1].
Qed.

(** The shape of a run of [executeQuery] after a submission that produced
    the handle [id]: the events of the poll loop, then those of the result
    fetch when the loop has succeeded. *)
Lemma executeQuery_run (input : QueryInput) (st : St W)
    (o : outcome StartQueryExecutionCommandOutput) (w1 : W) (id : string) :
  send (StartQueryExecutionCommand (query input) (database input) outputLocation)
    (world st) = (o, w1) →
  submitted_handle o = Some id →
  ∃ out st' evs_poll evs_fetch,
    executeQuery outputLocation input st = (out, st')
    ∧ trace st' = trace st ++
        Sent (now (world st))
          (StartQueryExecutionCommand (query input) (database input) outputLocation)
        :: evs_poll ++ evs_fetch
    ∧ Forall (poll_event id (Some (or_number (timeoutMs input) 60000)) (now w1)) evs_poll
    ∧ (List.length (List.filter is_status_request evs_poll) ≤ 100)%nat
    ∧ (evs_fetch = []
       ∨ (∃ t, evs_fetch = [Sent t (GetQueryExecutionCommand id)])
       ∨ (∃ t t', evs_fetch = [Sent t (GetQueryExecutionCommand id);
                               Sent t' (GetQueryResultsCommand id
                                          (or_number (maxRows input) 1000))]))
    ∧ match out with
      | Return (HandleOnly i) => i = id
      | Return (FullResult result) =>
          queryExecutionId result = id ∧ List.length evs_fetch = 2%nat
      | Throw _ => True
      end.
Proof.
  intros Hs Hid. rewrite (executeQuery_after_submission _ _ _ _ _ _ Hs Hid).
  set (c := StartQueryExecutionCommand (query input) (database input) outputLocation).
  set (st1 := after_send c st w1).
  unfold waitForQueryCompletion, bind at 1, Date_now.
  destruct (poll_run 100 id (Some (or_number (timeoutMs input) 60000))
              (now (world st1)) st1)
    as (o2 & st2 & evs & Heq & Htr & Hall & Hlen & _).
  change (default 100%nat (Some 100%nat)) with 100%nat. rewrite Heq.
  assert (Htr1 : ∀ rest, (trace st1 ++ evs) ++ rest
                         = trace st ++ Sent (now (world st)) c :: evs ++ rest).
  { intros rest. unfold st1, after_send. cbn [trace].
    now rewrite <- !app_assoc. }
  destruct o2 as [qe|e].
  - destruct (getQueryResults_run id (maxRows input) st2)
      as (o3 & st3 & evs3 & Hg & Htr3 & Hevs3 & Ho3).
    rewrite Hg.
    exists (match o3 with
            | Return result => Return (FullResult result)
            | Throw e => settle id e
            end), st3, evs,
      (Sent (now (world st2)) (GetQueryExecutionCommand id) :: evs3).
    split_and!.
    + destruct o3; reflexivity.
    + rewrite Htr3, Htr. apply Htr1.
    + exact Hall.
    + exact Hlen.
    + right. destruct Hevs3 as [-> | [t ->]]; [left | right]; eauto.
    + destruct o3 as [result|e].
      * destruct Ho3 as [Hid3 Hne]. split; [exact Hid3|].
        destruct Hevs3 as [-> | [t ->]]; [contradiction | reflexivity].
      * unfold settle. now destruct (has_code e && _).
  - exists (settle id e), st2, evs, []. split_and!; auto.
    + rewrite Htr, app_nil_r, <- (app_nil_r (trace st1 ++ evs)), Htr1.
      now rewrite app_nil_r.
    + unfold settle. now destruct (has_code e && _).
Qed.

(** X6. [executeQuery] never invents a handle.  Whatever it returns, the bare
    handle or a full result, carries the [QueryExecutionId] that the
    submission produced; the submission is the first event of the call and
    every later request is a status or result request for that handle.
    When the submission produced no handle nothing follows it and the call
    throws. *)
Theorem executeQuery_relays_handle (input : QueryInput) (st st' : St W)
    (o : outcome StartQueryExecutionCommandOutput) (w1 : W)
    (out : outcome ExecuteQueryResult) :
  send (StartQueryExecutionCommand (query input) (database input) outputLocation)
    (world st) = (o, w1) →
  executeQuery outputLocation input st = (out, st') →
  ∃ evs,
    trace st' = trace st ++
      Sent (now (world st))
        (StartQueryExecutionCommand (query input) (database input) outputLocation)
      :: evs
    ∧ match submitted_handle o with
      | Some id =>
          Forall (for_handle id) evs
          ∧ match out with
            | Return (HandleOnly i) => i = id
            | Return (FullResult result) => queryExecutionId result = id
            | Throw _ => True
            end
      | None => evs = [] ∧ ∃ e, out = Throw e
      end.
Proof.
  intros Hs Hrun. destruct (submitted_handle o) as [id|] eqn:Hid.
  - destruct (executeQuery_run input st o w1 id Hs Hid)
      as (out' & st'' & evs_poll & evs_fetch & Heq & Htr & Hall & _ & Hfetch & Hout).
    rewrite Hrun in Heq. injection Heq as <- <-.
    exists (evs_poll ++ evs_fetch). split; [exact Htr|]. split.
    + apply Forall_app. split; [apply (poll_events_counts _ _ _ _ Hall)|].
      destruct Hfetch as [-> | [[t ->] | (t & t' & ->)]];
        repeat constructor.
    + destruct out as [[result|i]|e]; auto. apply Hout.
  - destruct (executeQuery_stops outputLocation input st o w1 Hs Hid) as (e & Hstop & _).
    rewrite Hstop in Hrun. injection Hrun as <- <-. exists []. cbn. split_and!; eauto.
Qed.

(** X7. One [executeQuery] call sends exactly one submission, at most 101
    status requests (100 of the poll loop and one of the result fetch) and
    at most one result request: never more than 103 requests in all. *)
Theorem executeQuery_request_bound (input : QueryInput) (st : St W) :
  ∃ evs,
    trace (snd (executeQuery outputLocation input st)) = trace st ++ evs
    ∧ List.length (List.filter is_submission evs) = 1%nat
    ∧ (List.length (List.filter is_status_request evs) ≤ 101)%nat
    ∧ (List.length (List.filter is_results_request evs) ≤ 1)%nat
    ∧ (List.length (List.filter is_sent evs) ≤ 103)%nat.
Proof.
  destruct (send (StartQueryExecutionCommand (query input) (database input)
                    outputLocation) (world st)) as [o w1] eqn:Hs.
  destruct (submitted_handle o) as [id|] eqn:Hid.
  - destruct (executeQuery_run input st o w1 id Hs Hid)
      as (out' & st'' & evs_poll & evs_fetch & Heq & Htr & Hall & Hlen & Hfetch & _).
    rewrite Heq. cbn [snd]. eexists. split; [exact Htr|].
    destruct (poll_events_counts _ _ _ _ Hall) as (_ & Hsub & Hres & Hsent).
    cbn [List.filter is_submission is_status_request is_results_request is_sent].
    rewrite !List.filter_app, Hsub, Hres, Hsent, !length_app.
    destruct Hfetch as [-> | [[t ->] | (t & t' & ->)]]; cbn;
      rewrite ?length_app; cbn; lia.
  - destruct (executeQuery_stops outputLocation input st o w1 Hs Hid) as (e & Hstop & _).
    rewrite Hstop. cbn [snd trace after_send].
    eexists. split; [reflexivity|]. cbn. lia.
Qed.

End OrchestratorTrace.

Lemma executeQuery_relays_handle_witness :
  ∃ result st',
    executeQuery "s3://results/" Scenario.plain (Fake.initial Scenario.succeeded)
    = (Return (FullResult result), st')
    ∧ queryExecutionId result = "h-1".
Proof.
  destruct (executeQuery "s3://results/" Scenario.plain (Fake.initial Scenario.succeeded))
    as [[[result|i]|e] st'] eqn:Hrun;
    [|vm_compute in Hrun; discriminate|vm_compute in Hrun; discriminate].
  assert (Hs : send (StartQueryExecutionCommand (query Scenario.plain)
                       (database Scenario.plain) "s3://results/")
                 (world (Fake.initial Scenario.succeeded))
               = (Fake.started "h-1", Fake.tick Scenario.succeeded)) by reflexivity.
  destruct (executeQuery_relays_handle "s3://results/" Scenario.plain _ _ _ _ _ Hs Hrun)
    as (evs & _ & _ & Hid).
  exists result, st'. split; [reflexivity | exact Hid].
Defined.

(** ** The poll loop against the clock *)

Section PollClock.
Context {W : Type} `{Collaborators W}.

Lemma budget_exhausted_false (ms startTime t : Z) :
  ms ≠ 0%Z →
  budget_exhausted (Some ms) startTime t = false → (t - startTime < ms)%Z.
Proof.
  intros Hms. cbn. unfold truthy_number.
  destruct (Z.eqb_spec ms 0) as [?|_]; [contradiction|]. cbn. apply Z.leb_gt.
Qed.

Lemma poll_clock (Inv : W → Prop) (id : string) (ms startTime : Z) :
  lawful_clock Inv → ms ≠ 0%Z →
  ∀ (n : nat) (st : St W) (c : Z),
    Inv (world st) → (c ≤ now (world st) - startTime)%Z →
    ∃ o st' evs,
      poll n id (Some ms) startTime st = (o, st')
      ∧ trace st' = trace st ++ evs
      ∧ ∀ r, List.length (List.filter is_status_request evs) = S r →
             (c + 1000 * Z.of_nat r < ms)%Z.
Proof.
  intros [Hsend Hsleep] Hms n. induction n as [|n IH]; intros st c Hinv Hc.
  - exists (Throw (timed_out id)), st, []. split_and!; cbn; auto.
    + now rewrite app_nil_r.
    + discriminate.
  - destruct (budget_exhausted (Some ms) startTime (now (world st))) eqn:Hb.
    { exists (Throw (timed_out id)), st, [].
      rewrite (poll_exhausted _ _ _ _ _ Hb). split_and!; cbn; auto.
      - now rewrite app_nil_r.
      - discriminate. }
    pose proof (budget_exhausted_false _ _ _ Hms Hb) as Hlt.
    assert (Hone : ∀ r, List.length (List.filter is_status_request
                          [Sent (now (world st)) (GetQueryExecutionCommand id)]) = S r →
                        (c + 1000 * Z.of_nat r < ms)%Z).
    { cbn. intros r [= <-]. lia. }
    destruct (send (GetQueryExecutionCommand id) (world st)) as [[r0|e] w'] eqn:Hs.
    2:{ rewrite (poll_rejected _ _ _ _ _ _ _ Hb Hs). do 3 eexists.
        split_and!; [reflexivity | reflexivity | exact Hone]. }
    rewrite (poll_answered _ _ _ _ _ _ _ Hb Hs). cbn zeta.
    destruct (bool_decide (observed_state r0 = Some "SUCCEEDED")).
    { do 3 eexists. split_and!; [reflexivity | reflexivity | exact Hone]. }
    destruct (bool_decide (observed_state r0 = Some "FAILED")
              || bool_decide (observed_state r0 = Some "CANCELLED")).
    { do 3 eexists. split_and!; [reflexivity | reflexivity | exact Hone]. }
    destruct (Hsend _ _ _ _ Hinv Hs) as [Hinv' Hmono].
    destruct (Hsleep 1000%Z w' Hinv') as [Hinv'' Hadv].
    set (st1 := after_send (GetQueryExecutionCommand id) st w').
    destruct (IH (mkSt (elapse 1000 (world st1)) (trace st1 ++ [Slept 1000%Z]))
                (c + 1000)%Z) as (o & st' & evs & Heq & Htr & Hcount).
    + exact Hinv''.
    + cbn. lia.
    + exists o, st',
        (Sent (now (world st)) (GetQueryExecutionCommand id) :: Slept 1000%Z :: evs).
      split_and!.
      * exact Heq.
      * rewrite Htr. cbn. now rewrite <- !app_assoc.
      * cbn. intros r [= Hr].
        destruct r as [|r]; [lia|]. specialize (Hcount r Hr). lia.
Qed.

(** X8. With a lawful clock (requests never turn it back, a suspension of 1000
    ms advances it by at least that much) and a budget of [ms], the loop
    issues its k-th status request no earlier than (k-1) seconds in, so that
    [1000 * (k - 1) < ms]: a budget of [ms] buys at most [ms / 1000],
    rounded up, status requests, whatever the attempt limit. *)
Theorem waitForQueryCompletion_clock_bound (Inv : W → Prop) (id : string)
    (maxAttempts : option nat) (ms : Z) (st : St W) :
  lawful_clock Inv →
  Inv (world st) →
  ms ≠ 0%Z →
  ∃ o st' evs,
    waitForQueryCompletion id maxAttempts (Some ms) st = (o, st')
    ∧ trace st' = trace st ++ evs
    ∧ ∀ k, List.length (List.filter is_status_request evs) = S k →
           (1000 * Z.of_nat k < ms)%Z.
Proof.
  intros Hlaw Hinv Hms. unfold waitForQueryCompletion, bind, Date_now.
  destruct (poll_clock Inv id ms (now (world st)) Hlaw Hms
              (default 100%nat maxAttempts) st 0%Z Hinv) as (o & st' & evs & Heq & Htr & Hc).
  - lia.
  - exists o, st', evs. split_and!; [exact Heq | exact Htr |].
    intros k Hk. specialize (Hc k Hk). lia.
Qed.

End PollClock.

(** The scripted service has a lawful clock as long as its requests take
    a non-negative time. *)
Lemma Fake_lawful_clock : lawful_clock (λ w : Fake.scripted, (0 ≤ Fake.latency w)%Z).
Proof.
  split.
  - intros c w w' o Hlat Hs. destruct c; cbn in Hs.
    + injection Hs as _ <-. cbn. split; lia.
    + unfold Fake.next_status in Hs.
      destruct (Fake.on_status w) as [|o1 [|o2 rest]];
        injection Hs as _ <-; cbn; split; lia.
    + injection Hs as _ <-. cbn. split; lia.
  - intros ms w Hlat. cbn. split; lia.
Qed.

Lemma waitForQueryCompletion_clock_bound_witness :
  ∃ o st' evs,
    waitForQueryCompletion "h-1" None (Some 3000%Z) (Fake.initial Scenario.running)
    = (o, st')
    ∧ trace st' = evs
    ∧ ∀ k, List.length (List.filter is_status_request evs) = S k → (k < 3)%nat.
Proof.
  assert (Hinv : (0 ≤ Fake.latency (world (Fake.initial Scenario.running)))%Z)
    by (cbn; lia).
  assert (Hms : 3000%Z ≠ 0%Z) by discriminate.
  destruct (waitForQueryCompletion_clock_bound _ "h-1" None 3000
              (Fake.initial Scenario.running) Fake_lawful_clock Hinv Hms)
    as (o & st' & evs & Heq & Htr & Hk).
  exists o, st', evs. split_and!; [exact Heq | exact Htr |].
  intros k Hlen. specialize (Hk k Hlen). lia.
Defined.

(** ** One status response, read by the poll loop and by the result fetch *)

Section TwoReaders.
Context {W : Type} `{Collaborators W}.

Lemma getQueryStatus_answered (id : string) (st : St W)
    (response : GetQueryExecutionCommandOutput) (w' : W) (qe : QueryExecutionT) :
  send (GetQueryExecutionCommand id) (world st) = (Return response, w') →
  QueryExecution response = Some qe →
  getQueryStatus id st =
    (Return {| state := or_string (Status qe ≫= State) "UNKNOWN";
               stateChangeReason := Status qe ≫= StateChangeReason;
               statistics := Some
                 {| dataScannedInBytes :=
                      or_number (Statistics qe ≫= DataScannedInBytes) 0;
                    engineExecutionTimeInMillis :=
                      or_number (Statistics qe ≫= EngineExecutionTimeInMillis) 0 |} |},
     after_send (GetQueryExecutionCommand id) st w').
Proof.
  intros Hs Hqe. unfold getQueryStatus, try_catch, bind.
  rewrite (client_send_eq _ _ _ _ Hs), Hqe. reflexivity.
Qed.

(** X9. The poll loop and the result fetch agree on FAILED and part on
    CANCELLED.  For a response in state FAILED both throw the same
    [QUERY_FAILED] error, with the same message.  For a response in state
    CANCELLED the loop of [run_query] throws [QUERY_FAILED] with the stated
    reason, while [get_result] throws [UNEXPECTED_STATE] naming CANCELLED
    and drops the reason. *)
Theorem failed_agrees_cancelled_differs (n : nat) (id : string)
    (maxRows timeoutMs : option Z) (startTime : Z) (st : St W)
    (response : GetQueryExecutionCommandOutput) (w' : W) :
  budget_exhausted timeoutMs startTime (now (world st)) = false →
  send (GetQueryExecutionCommand id) (world st) = (Return response, w') →
  let st' := after_send (GetQueryExecutionCommand id) st w' in
  let failed :=
    ThrownObject {| message := or_string (observed_reason response) "Query failed";
                    code := "QUERY_FAILED";
                    handle := Some id |} in
  (observed_state response = Some "FAILED" →
     poll (S n) id timeoutMs startTime st = (Throw failed, st')
     ∧ getQueryResults id maxRows st = (Throw failed, st')) ∧
  (observed_state response = Some "CANCELLED" →
     poll (S n) id timeoutMs startTime st = (Throw failed, st')
     ∧ getQueryResults id maxRows st =
         (Throw (ThrownObject {| message := "Unexpected query state: CANCELLED";
                                 code := "UNEXPECTED_STATE";
                                 handle := Some id |}), st')).
Proof.
  intros Hb Hs st' failed.
  assert (Hboth : ∀ s, observed_state response = Some s → s ≠ "" →
            ∃ qe, QueryExecution response = Some qe
                  ∧ or_string (Status qe ≫= State) "UNKNOWN" = s
                  ∧ (Status qe ≫= StateChangeReason) = observed_reason response).
  { intros s Hst Hne. unfold observed_state, observed_reason in *.
    destruct (QueryExecution response) as [qe|]; [|discriminate]. cbn in *.
    exists qe. rewrite Hst. split_and!; auto. cbn.
    destruct s; [contradiction | reflexivity]. }
  rewrite (poll_answered _ _ _ _ _ _ _ Hb Hs). cbn zeta. fold st'.
  split; intros Hst; rewrite Hst; cbn [bool_decide orb];
    (split; [reflexivity|]);
    destruct (Hboth _ Hst ltac:(discriminate)) as (qe & Hqe & Hstate & Hreason);
    unfold getQueryResults, try_catch, bind;
    rewrite (getQueryStatus_answered _ _ _ _ _ Hs Hqe); cbn [state stateChangeReason];
    rewrite Hstate, Hreason; reflexivity.
Qed.

(** X10. A status response that says nothing.  When it carries no execution,
    [get_status] and [get_result] fail with [QUERY_NOT_FOUND]; when it
    carries an execution without a state they read UNKNOWN, on which
    [get_result] fails with [UNEXPECTED_STATE].  The poll loop takes either
    response for a query that is still under way: it suspends and asks
    again. *)
Theorem silent_response (n : nat) (id : string) (maxRows timeoutMs : option Z)
    (startTime : Z) (st : St W) (response : GetQueryExecutionCommandOutput) (w' : W) :
  budget_exhausted timeoutMs startTime (now (world st)) = false →
  send (GetQueryExecutionCommand id) (world st) = (Return response, w') →
  observed_state response = None →
  let st' := after_send (GetQueryExecutionCommand id) st w' in
  poll (S n) id timeoutMs startTime st =
    poll n id timeoutMs startTime
      (mkSt (elapse 1000 (world st')) (trace st' ++ [Slept 1000%Z]))
  ∧ match QueryExecution response with
    | None =>
        getQueryStatus id st = (Throw not_found, st')
        ∧ getQueryResults id maxRows st = (Throw not_found, st')
    | Some _ =>
        (∃ status, getQueryStatus id st = (Return status, st')
                   ∧ state status = "UNKNOWN")
        ∧ getQueryResults id maxRows st =
            (Throw (ThrownObject {| message := "Unexpected query state: UNKNOWN";
                                    code := "UNEXPECTED_STATE";
                                    handle := Some id |}), st')
    end.
Proof.
  intros Hb Hs Hst st'. split.
  - rewrite (poll_answered _ _ _ _ _ _ _ Hb Hs). cbn zeta. now rewrite Hst.
  - destruct (QueryExecution response) as [qe|] eqn:Hqe.
    + assert (Hstate : or_string (Status qe ≫= State) "UNKNOWN" = "UNKNOWN").
      { unfold observed_state in Hst. rewrite Hqe in Hst. cbn in Hst. now rewrite Hst. }
      pose proof (getQueryStatus_answered _ _ _ _ _ Hs Hqe) as Hq. split.
      * eexists. split; [exact Hq | exact Hstate].
      * unfold getQueryResults, try_catch, bind. rewrite Hq. cbn [state].
        rewrite Hstate. reflexivity.
    + assert (Hq : getQueryStatus id st = (Throw not_found, st')).
      { unfold getQueryStatus, try_catch, bind.
        rewrite (client_send_eq _ _ _ _ Hs), Hqe. reflexivity. }
      split; [exact Hq|]. now apply getQueryResults_status_throws.
Qed.

End TwoReaders.

Lemma failed_agrees_cancelled_differs_witness :
  ∃ st',
    poll 1 "h-1" None 0 (Fake.initial Scenario.cancelled)
    = (Throw (ThrownObject {| message := "user request";
                              code := "QUERY_FAILED";
                              handle := Some "h-1" |}), st')
    ∧ getQueryResults "h-1" None (Fake.initial Scenario.cancelled)
      = (Throw (ThrownObject {| message := "Unexpected query state: CANCELLED";
                                code := "UNEXPECTED_STATE";
                                handle := Some "h-1" |}), st').
Proof.
  assert (Hs : send (GetQueryExecutionCommand "h-1")
                 (world (Fake.initial Scenario.cancelled))
               = (Return (Fake.in_state "CANCELLED" (Some "user request")),
                  Fake.tick Scenario.cancelled)) by reflexivity.
  destruct (failed_agrees_cancelled_differs 0 "h-1" None None 0
              (Fake.initial Scenario.cancelled) _ _ eq_refl Hs) as [_ Hcancelled].
  eexists. exact (Hcancelled eq_refl).
Defined.

Lemma silent_response_witness :
  ∃ st',
    getQueryStatus "h-1" (Fake.initial Scenario.blank) = (Throw not_found, st')
    ∧ getQueryResults "h-1" None (Fake.initial Scenario.blank) = (Throw not_found, st').
Proof.
  assert (Hs : send (GetQueryExecutionCommand "h-1")
                 (world (Fake.initial Scenario.blank))
               = (Return {| QueryExecution := None |}, Fake.tick Scenario.blank))
    by reflexivity.
  destruct (silent_response 0 "h-1" None None 0 (Fake.initial Scenario.blank) _ _
              eq_refl Hs eq_refl) as [_ Hnone].
  eexists. exact Hnone.
Defined.

(** ** The tool surface: validation, dispatch and errors *)

Section ToolCalls.
Context {W : Type} `{Collaborators W}.
Variable outputLocation : string.
Variable McpError_message : McpErrorCode → string → string.

Lemma valid_handle_None (v : value) :
  valid_handle v = None → negb (truthy v) || negb (is_string v) = true.
Proof.
  destruct v as [| |b|n|s|]; cbn; try reflexivity; try (now destruct b).
  - intros _. apply orb_true_r.
  - destruct (truthy_string s); [discriminate | reflexivity].
Qed.

Lemma valid_handle_Some (v : value) (s : string) :
  valid_handle v = Some s →
  v = VString s ∧ negb (truthy v) || negb (is_string v) = false.
Proof.
  destruct v as [| |b|n|s'|]; cbn; try discriminate.
  destruct (truthy_string s') eqn:Hs; [|discriminate]. intros [= ->]. auto.
Qed.

Lemma dispatch_get_result (request : CallToolRequest) :
  name request = "get_result" →
  dispatch outputLocation McpError_message request =
    let id := opt_prop (arguments request) "queryExecutionId" in
    if negb (truthy id) || negb (is_string id)
    then throw (invalid_handle_param McpError_message)
    else
      let maxRows := number_or_undefined (opt_prop (arguments request) "maxRows") in
      let! result := getQueryResults (as_string id) maxRows in
      ret (text_result (OfQueryResult result)).
Proof. intros Hname. unfold dispatch. rewrite Hname. reflexivity. Qed.

Lemma dispatch_get_status (request : CallToolRequest) :
  name request = "get_status" →
  dispatch outputLocation McpError_message request =
    let id := opt_prop (arguments request) "queryExecutionId" in
    if negb (truthy id) || negb (is_string id)
    then throw (invalid_handle_param McpError_message)
    else
      let! status := getQueryStatus (as_string id) in
      ret (text_result (OfQueryStatus status)).
Proof. intros Hname. unfold dispatch. rewrite Hname. reflexivity. Qed.

Lemma handle_required_helper (request : CallToolRequest) (st : St W) :
  name request = "get_result" ∨ name request = "get_status" →
  valid_handle (opt_prop (arguments request) "queryExecutionId") = None →
  call_tool outputLocation McpError_message request st
  = (Return (mcp_error_result McpError_message InvalidParams
               "Missing or invalid required parameter: queryExecutionId (string)"),
     st).
Proof.
  intros Hname Hv. unfold call_tool, dispatch, try_catch.
  apply valid_handle_None in Hv.
  destruct Hname as [-> | ->]; cbn [bool_decide decide]; rewrite Hv; reflexivity.
Qed.

(** X11. [get_result] and [get_status] require the handle to be a non-empty
    string: without arguments, or with a [queryExecutionId] that is absent,
    not a string or empty, the call is answered with the invalid-parameter
    error and nothing is sent.  With a valid handle the first request is the
    status request for exactly that handle. *)
Theorem handle_required (request : CallToolRequest) (st : St W) :
  name request = "get_result" ∨ name request = "get_status" →
  (valid_handle (opt_prop (arguments request) "queryExecutionId") = None →
     call_tool outputLocation McpError_message request st
     = (Return (mcp_error_result McpError_message InvalidParams
                  "Missing or invalid required parameter: queryExecutionId (string)"),
        st)) ∧
  (∀ id, valid_handle (opt_prop (arguments request) "queryExecutionId") = Some id →
     ∃ evs, trace (snd (call_tool outputLocation McpError_message request st))
            = trace st ++ Sent (now (world st)) (GetQueryExecutionCommand id) :: evs).
Proof.
  intros Hname. split; [now apply handle_required_helper|].
  intros id Hv. apply valid_handle_Some in Hv. destruct Hv as [Hid Hv].
  unfold call_tool, try_catch.
  destruct Hname as [Hname | Hname];
    [rewrite (dispatch_get_result _ Hname) | rewrite (dispatch_get_status _ Hname)];
    cbn zeta; rewrite Hv, Hid; cbn [as_string]; unfold bind.
    + destruct (getQueryResults_run id
                  (number_or_undefined (opt_prop (arguments request) "maxRows")) st)
        as (o & st' & evs & Heq & Htr & _).
      rewrite Heq. exists evs. destruct o as [r|e]; cbn; [exact Htr|].
      unfold error_result. destruct (has_code e && has_message e); exact Htr.
    + destruct (getQueryStatus id st) as [o st'] eqn:Heq.
      pose proof (getQueryStatus_trace _ _ _ _ Heq) as Htr.
      exists []. destruct o as [r|e]; cbn; [exact Htr|].
      unfold error_result. destruct (has_code e && has_message e); exact Htr.
Qed.

(** X12. [get_result] asks the service for [maxRows] rows as given: a [maxRows]
    that is absent, not a number, or 0 is replaced by 1000, and any other
    number is passed on unchanged.  The result request, if there is one, is
    the only request after the status request. *)
Theorem get_result_row_limit (request : CallToolRequest) (st : St W) (id : string) :
  name request = "get_result" →
  valid_handle (opt_prop (arguments request) "queryExecutionId") = Some id →
  ∃ evs,
    trace (snd (call_tool outputLocation McpError_message request st))
    = trace st ++ Sent (now (world st)) (GetQueryExecutionCommand id) :: evs
    ∧ (evs = []
       ∨ ∃ t, evs = [Sent t (GetQueryResultsCommand id
                               (row_limit (opt_prop (arguments request) "maxRows")))]).
Proof.
  intros Hname Hv. apply valid_handle_Some in Hv. destruct Hv as [Hid Hv].
  unfold call_tool, try_catch. rewrite (dispatch_get_result _ Hname). cbn zeta.
  rewrite Hv, Hid. cbn [as_string]. unfold bind.
  destruct (getQueryResults_run id
              (number_or_undefined (opt_prop (arguments request) "maxRows")) st)
    as (o & st' & evs & Heq & Htr & Hevs & _).
  rewrite Heq.
  assert (Hlimit : or_number (number_or_undefined
                                (opt_prop (arguments request) "maxRows")) 1000
                   = row_limit (opt_prop (arguments request) "maxRows")).
  { destruct (opt_prop (arguments request) "maxRows"); cbn; try reflexivity.
    unfold truthy_number. now destruct (n =? 0)%Z. }
  rewrite Hlimit in Hevs. exists evs.
  destruct o as [r|e]; cbn; [auto|].
  unfold error_result. destruct (has_code e && has_message e); auto.
Qed.

(** X13. A call to a tool that [tools] does not list is answered with the
    unknown-tool error, and nothing is sent. *)
Theorem unknown_tool_rejected (request : CallToolRequest) (st : St W) :
  name request ∉ tool_name <$> tools →
  call_tool outputLocation McpError_message request st
  = (Return (mcp_error_result McpError_message MethodNotFound ("Unknown tool: " +:+ name request)), st).
Proof.
  intros Hn. unfold call_tool, dispatch, try_catch.
  rewrite !bool_decide_eq_false_2; [reflexivity | | |];
    intros Heq; apply Hn; rewrite Heq; cbn; set_solver.
Qed.

(** X14. Every property that the schema of a listed tool marks as required is
    enforced by the handler: a call to that tool without the property is
    answered with an invalid-parameter error, and nothing is sent. *)
Theorem required_properties_enforced (tool : Tool) (key : string)
    (request : CallToolRequest) (st : St W) :
  tool ∈ tools →
  key ∈ required tool →
  name request = tool_name tool →
  opt_prop (arguments request) key = VUndefined →
  ∃ msg,
    call_tool outputLocation McpError_message request st
    = (Return (mcp_error_result McpError_message InvalidParams msg), st).
Proof.
  intros Htool Hkey Hname Hmissing. unfold tools in Htool.
  repeat (apply elem_of_cons in Htool; destruct Htool as [-> | Htool]);
    [| | |now apply elem_of_nil in Htool]; cbn in Hkey, Hname.
  - unfold call_tool, dispatch, try_catch. rewrite Hname. cbn [bool_decide decide].
    destruct (arguments request) as [args|]; [|eexists; reflexivity].
    cbn [opt_prop] in Hmissing.
    repeat (apply elem_of_cons in Hkey; destruct Hkey as [-> | Hkey]);
      [| |now apply elem_of_nil in Hkey]; rewrite Hmissing; cbn;
      [|rewrite orb_true_r]; eexists; reflexivity.
  - repeat (apply elem_of_cons in Hkey; destruct Hkey as [-> | Hkey]);
      [|now apply elem_of_nil in Hkey].
    eexists. apply handle_required_helper; [left; exact Hname|].
    now rewrite Hmissing.
  - repeat (apply elem_of_cons in Hkey; destruct Hkey as [-> | Hkey]);
      [|now apply elem_of_nil in Hkey].
    eexists. apply handle_required_helper; [right; exact Hname|].
    now rewrite Hmissing.
Qed.

End ToolCalls.

Lemma handle_required_witness :
  call_tool "s3://results/" Fake.mcp_message Scenario.get_result_empty_handle
    (Fake.initial Scenario.succeeded)
  = (Return {| content := Literal "Error: MCP error -32602: Missing or invalid required parameter: queryExecutionId (string)";
               isError := true |},
     Fake.initial Scenario.succeeded).
Proof.
  destruct (handle_required "s3://results/" Fake.mcp_message
              Scenario.get_result_empty_handle (Fake.initial Scenario.succeeded)
              (or_introl eq_refl)) as [Hreject _].
  exact (Hreject eq_refl).
Defined.

Lemma get_result_row_limit_witness :
  ∃ evs,
    trace (snd (call_tool "s3://results/" Fake.mcp_message Scenario.get_result_fifty
                  (Fake.initial Scenario.succeeded)))
    = Sent 0 (GetQueryExecutionCommand "h-1") :: evs
    ∧ (evs = [] ∨ ∃ t, evs = [Sent t (GetQueryResultsCommand "h-1" 1000)]).
Proof.
  exact (get_result_row_limit "s3://results/" Fake.mcp_message
           Scenario.get_result_fifty (Fake.initial Scenario.succeeded) "h-1"
           eq_refl eq_refl).
Defined.

Lemma unknown_tool_rejected_witness :
  call_tool "s3://results/" Fake.mcp_message Scenario.drop_table
    (Fake.initial Scenario.succeeded)
  = (Return {| content := Literal "Error: MCP error -32601: Unknown tool: drop_table";
               isError := true |},
     Fake.initial Scenario.succeeded).
Proof.
  apply (unknown_tool_rejected "s3://results/" Fake.mcp_message Scenario.drop_table
           (Fake.initial Scenario.succeeded)).
  cbn. rewrite !not_elem_of_cons. split_and!; try discriminate. apply not_elem_of_nil.
Defined.

Lemma required_properties_enforced_witness :
  ∃ msg,
    call_tool "s3://results/" Fake.mcp_message Scenario.get_status_bare
      (Fake.initial Scenario.succeeded)
    = (Return (mcp_error_result Fake.mcp_message InvalidParams msg),
       Fake.initial Scenario.succeeded).
Proof.
  apply (required_properties_enforced "s3://results/" Fake.mcp_message
           {| tool_name := "get_status";
              tool_description := "Get the current status of a query execution";
              properties :=
                [("queryExecutionId", string_property "The query execution ID")];
              required := ["queryExecutionId"] |}
           "queryExecutionId").
  - unfold tools. rewrite !elem_of_cons. right; right; left. reflexivity.
  - apply elem_of_cons. left. reflexivity.
  - reflexivity.
  - reflexivity.
Defined.

(** ** What the handler throws, and start-up *)

Section HandlerErrors.
Context {W : Type} `{Collaborators W}.
Variable outputLocation : string.
Variable McpError_message : McpErrorCode → string → string.

Lemma as_invalid_request_not_raw (e : thrown) :
  is_InvalidRequestException (as_invalid_request e) = false.
Proof. destruct e; reflexivity. Qed.

Lemma settle_throws (id : string) (e e' : thrown) :
  settle id e = Throw e' → is_InvalidRequestException e' = false.
Proof.
  unfold settle. destruct (has_code e && _); [discriminate|].
  intros [= <-]. apply as_invalid_request_not_raw.
Qed.

(** What [executeQuery] throws is never the SDK's [InvalidRequestException]
    itself. *)
Lemma executeQuery_throws (input : QueryInput) (st st' : St W) (e : thrown) :
  executeQuery outputLocation input st = (Throw e, st') →
  is_InvalidRequestException e = false.
Proof.
  destruct (send (StartQueryExecutionCommand (query input) (database input)
                    outputLocation) (world st)) as [o w1] eqn:Hs.
  destruct (submitted_handle o) as [id|] eqn:Hid.
  - rewrite (executeQuery_after_submission _ _ _ _ _ _ Hs Hid).
    destruct (waitForQueryCompletion _ _ _ _) as [[qe|e1] st2].
    + destruct (getQueryResults _ _ _) as [[r|e3] st3]; [discriminate|].
      intros [= Hsettle _]. exact (settle_throws _ _ _ Hsettle).
    + intros [= Hsettle _]. exact (settle_throws _ _ _ Hsettle).
  - destruct (executeQuery_stops _ _ _ _ _ Hs Hid) as (e0 & Hstop & Hraw).
    rewrite Hstop. intros [= <- _]. exact Hraw.
Qed.

Lemma bind_throws {A B} (m : M W A) (k : A → M W B) (st st' : St W) (e : thrown) :
  (∀ a st1 e1 st2, k a st1 = (Throw e1, st2) → False) →
  bind m k st = (Throw e, st') → m st = (Throw e, st').
Proof.
  intros Hk. unfold bind. destruct (m st) as [[a|e1] st1].
  - intros Hka. destruct (Hk _ _ _ _ Hka).
  - intros [= -> ->]. reflexivity.
Qed.

Lemma dispatch_throws (request : CallToolRequest) (st st' : St W) (e : thrown) :
  dispatch outputLocation McpError_message request st = (Throw e, st') →
  is_InvalidRequestException e = false.
Proof.
  unfold dispatch.
  repeat case_bool_decide;
    repeat match goal with
           | |- context [match ?x with _ => _ end] =>
               match type of x with
               | option _ => destruct x
               | bool => destruct x
               end
           end;
    try (intros [= <- _]; reflexivity);
    intros Hb; apply bind_throws in Hb; try (intros ? ? ? ? [=]).
  - exact (executeQuery_throws _ _ _ _ Hb).
  - destruct (getQueryResults_run (as_string (opt_prop (arguments request)
                "queryExecutionId"))
                (number_or_undefined (opt_prop (arguments request) "maxRows")) st)
      as (o & st1 & evs & Heq & _ & _ & Ho).
    rewrite Hb in Heq. injection Heq as <- <-. exact Ho.
  - exact (getQueryStatus_throws _ _ _ _ Hb).
Qed.

(** X15. The handler never throws an error that has a code.  What the
    dispatch returns is returned.  When the dispatch throws one of the
    handler's own errors (invalid parameters, unknown tool), an error
    object of the service ([INVALID_REQUEST], [QUERY_NOT_FOUND],
    [QUERY_STILL_RUNNING], [QUERY_FAILED], [UNEXPECTED_STATE]) or a
    rejection of the service that has a code, the handler returns a result
    marked [isError] whose text is "Error: " followed by the message.  A
    plain [Error] and a rejection without a code are thrown again, and the
    SDK's [InvalidRequestException] never reaches the handler. *)
Theorem call_tool_errors (request : CallToolRequest) (st st' : St W)
    (o : outcome CallToolResult) :
  dispatch outputLocation McpError_message request st = (o, st') →
  match o with
  | Return r => call_tool outputLocation McpError_message request st = (Return r, st')
  | Throw e =>
      match e with
      | ThrownObject _ | McpError _ _ | ServiceException _ (Some _) _ =>
          call_tool outputLocation McpError_message request st
          = (Return {| content := Literal ("Error: " +:+ message_of e);
                       isError := true |}, st')
      | JsError _ | ServiceException _ None _ =>
          call_tool outputLocation McpError_message request st = (Throw e, st')
      | InvalidRequestException _ => False
      end
  end.
Proof.
  intros Hd. unfold call_tool, try_catch. rewrite Hd.
  destruct o as [r|e]; [reflexivity|].
  pose proof (dispatch_throws _ _ _ _ Hd) as Hraw.
  destruct e as [m|n [c|] m|m|err|c m]; cbn in Hraw |- *;
    try discriminate; reflexivity.
Qed.

End HandlerErrors.

(** X16. The server starts exactly when [OUTPUT_S3_PATH] is set and not empty;
    otherwise construction throws.  A started server sends every
    submission of [run_query] with that path as the output location. *)
Theorem server_start (env : gmap string string) :
  match new_AthenaServer env with
  | Return server =>
      ∃ path,
        env !! "OUTPUT_S3_PATH" = Some path ∧ path ≠ ""
        ∧ ∀ (W : Type) (C : Collaborators W)
            (McpError_message : McpErrorCode → string → string)
            (request : CallToolRequest) (input : QueryInput) (st : St W),
            name request = "run_query" →
            run_query_input request = Some input →
            ∃ evs,
              trace (snd (server_call_tool server McpError_message request st))
              = trace st ++
                Sent (now (world st))
                  (StartQueryExecutionCommand (query input) (database input) path)
                :: evs
  | Throw e =>
      e = JsError "OUTPUT_S3_PATH environment variable is required"
      ∧ (env !! "OUTPUT_S3_PATH" = None ∨ env !! "OUTPUT_S3_PATH" = Some "")
  end.
Proof.
  unfold new_AthenaServer, new_AthenaService.
  destruct (env !! "OUTPUT_S3_PATH") as [path|]; [|auto].
  destruct path as [|a path]; cbn; [auto|].
  eexists. split_and!; [reflexivity | discriminate |].
  intros W C msg request input st Hname Hin. unfold server_call_tool. cbn.
  rewrite (call_tool_run_query _ _ _ _ Hname Hin).
  destruct (executeQuery_submits (String a path) input st) as [evs Hevs].
  unfold try_catch, bind.
  destruct (executeQuery (String a path) input st) as [[r|e] st1]; cbn in Hevs |- *.
  - eauto.
  - unfold error_result. destruct (has_code e && has_message e); cbn; eauto.
Qed.

Lemma call_tool_errors_witness :
  ∃ st',
    call_tool "s3://results/" Fake.mcp_message Scenario.get_result_fifty
      (Fake.initial Scenario.succeeded_without_results)
    = (Throw (JsError "No results returned from query"), st').
Proof.
  set (run := dispatch "s3://results/" Fake.mcp_message Scenario.get_result_fifty
                (Fake.initial Scenario.succeeded_without_results)).
  assert (Hd : run = (Throw (JsError "No results returned from query"), snd run))
    by (vm_compute; reflexivity).
  exists (snd run).
  exact (call_tool_errors "s3://results/" Fake.mcp_message _ _ _ _ Hd).
Defined.

Lemma server_start_witness :
  ∃ server evs,
    new_AthenaServer Scenario.configured = Return server
    ∧ trace (snd (server_call_tool server Fake.mcp_message Scenario.run_query_10001
                    (Fake.initial Scenario.succeeded)))
      = Sent 0 (StartQueryExecutionCommand "SELECT 1" "sales" "s3://results/") :: evs.
Proof.
  pose proof (server_start Scenario.configured) as Hstart.
  destruct (new_AthenaServer Scenario.configured) as [server|e] eqn:Hnew;
    [|vm_compute in Hnew; discriminate].
  destruct Hstart as (path & Hpath & _ & Hcall).
  assert (Hp : path = "s3://results/") by (vm_compute in Hpath; congruence).
  subst path.
  destruct (Hcall Fake.scripted Fake.collaborators Fake.mcp_message
              Scenario.run_query_10001
              {| database := "sales"; query := "SELECT 1";
                 maxRows := Some 10001%Z; timeoutMs := None |}
              (Fake.initial Scenario.succeeded) eq_refl eq_refl) as [evs Hevs].
  exists server, evs. split; [reflexivity | exact Hevs].
Defined.

(** ** A negative budget, and reading a record back *)

Section Edges.
Context {W : Type} `{Collaborators W}.
Variable outputLocation : string.

(** X17. A negative [timeoutMs] is a budget that is exhausted from the start:
    after a submission that produced the handle [id], [executeQuery]
    returns the bare handle at once, without a single status request. *)
Theorem executeQuery_negative_budget (input : QueryInput) (st : St W)
    (o : outcome StartQueryExecutionCommandOutput) (w1 : W) (id : string) (ms : Z) :
  send (StartQueryExecutionCommand (query input) (database input) outputLocation)
    (world st) = (o, w1) →
  submitted_handle o = Some id →
  timeoutMs input = Some ms →
  (ms < 0)%Z →
  executeQuery outputLocation input st =
    (Return (HandleOnly id),
     mkSt w1 (trace st ++
              [Sent (now (world st))
                 (StartQueryExecutionCommand (query input) (database input)
                    outputLocation)])).
Proof.
  intros Hs Hid Hms Hneg. rewrite (executeQuery_after_submission _ _ _ _ _ _ Hs Hid).
  unfold waitForQueryCompletion, bind, Date_now.
  rewrite Hms.
  assert (Hor : or_number (Some ms) 60000 = ms).
  { unfold or_number, truthy_number. destruct (Z.eqb_spec ms 0); [lia | reflexivity]. }
  rewrite Hor.
  change (default 100%nat (Some 100%nat)) with (S 99).
  rewrite poll_exhausted; [reflexivity|].
  cbn. unfold truthy_number. destruct (Z.eqb_spec ms 0); [lia|]. cbn.
  apply Z.leb_le. lia.
Qed.

(** X18. Reading a record back.  When the column names are pairwise
    distinct, none of them empty or ["__proto__"], and the row has one
    cell per column, looking the column names up in the record of the row,
    in column order, gives back the cells of the row, a null cell as an
    undefined value. *)
Theorem row_object_roundtrip (columns : list string) (cells : list Datum) :
  NoDup columns →
  "" ∉ columns →
  "__proto__" ∉ columns →
  List.length cells = List.length columns →
  (λ name, row_object columns {| Data := Some cells |} !! name) <$> columns
  = (λ cell, Some (VarCharValue cell)) <$> cells.
Proof.
  intros Hnd Hne Hnp Hlen. apply list_eq. intros i. rewrite !list_lookup_fmap.
  destruct (columns !! i) as [name|] eqn:Hcol; cbn.
  - destruct (cells !! i) as [cell|] eqn:Hcell; cbn.
    + f_equal. unfold row_object. cbn.
      apply (forEach_cell_last columns cells 0%nat ∅ i name cell); auto.
      * intros ->. apply Hne. eapply list_elem_of_lookup_2. exact Hcol.
      * intros ->. apply Hnp. eapply list_elem_of_lookup_2. exact Hcol.
      * intros j cell' Hij _ Hj. cbn in Hj.
        pose proof (NoDup_lookup _ _ _ _ Hnd Hcol Hj). lia.
    + apply lookup_ge_None in Hcell. apply lookup_lt_Some in Hcol. lia.
  - destruct (cells !! i) as [cell|] eqn:Hcell; cbn; [|reflexivity].
    apply lookup_ge_None in Hcol. apply lookup_lt_Some in Hcell. lia.
Qed.

End Edges.

Lemma executeQuery_negative_budget_witness :
  executeQuery "s3://results/" Scenario.hasty (Fake.initial Scenario.running)
  = (Return (HandleOnly "h-1"),
     mkSt (Fake.tick Scenario.running)
       [Sent 0 (StartQueryExecutionCommand "SELECT 1" "sales" "s3://results/")]).
Proof.
  assert (Hs : send (StartQueryExecutionCommand (query Scenario.hasty)
                       (database Scenario.hasty) "s3://results/")
                 (world (Fake.initial Scenario.running))
               = (Fake.started "h-1", Fake.tick Scenario.running)) by reflexivity.
  assert (Hneg : (-1 < 0)%Z) by lia.
  exact (executeQuery_negative_budget "s3://results/" Scenario.hasty
           (Fake.initial Scenario.running) _ _ "h-1" (-1) Hs eq_refl eq_refl Hneg).
Defined.

Lemma row_object_roundtrip_witness :
  (λ name, row_object ["col_a"; "col_b"]
             {| Data := Some [Fake.cell "2"; Fake.null_cell] |} !! name)
    <$> ["col_a"; "col_b"]
  = [Some (Some "2"); Some None].
Proof.
  apply (row_object_roundtrip ["col_a"; "col_b"] [Fake.cell "2"; Fake.null_cell]).
  - repeat constructor; rewrite ?not_elem_of_cons; split_and?;
      try discriminate; apply not_elem_of_nil.
  - rewrite !not_elem_of_cons. split_and!; try discriminate. apply not_elem_of_nil.
  - rewrite !not_elem_of_cons. split_and!; try discriminate. apply not_elem_of_nil.
  - reflexivity.
Defined.
